(** * Job queue and worker of the financial document analyzer

    A shallow embedding of [tools.py] (the PDF reading tool),
    [database.py] (the two tables the queue uses) and [queue_worker.py]
    (the [QueueManager]), followed by the properties of the queue's
    specification stated against that embedding.

    Conventions of the embedding.
    - A Python [str] is a Rocq [string]; a character stands for a code
      point below 256.  Rocq string literals do not interpret escapes, so
      the line feed is the constant [Py.nl].
    - A Python call that may raise returns an [outcome]; [try/except] is
      [Outcome.catch] (pure code) or [try_except] (code that touches the
      database).
    - Everything outside the program (file system, PDF library, wall
      clock, storage faults, the Redis broker) is an oracle collected in
      the record [Env]; the code is a function of it.  Module imports are
      taken to succeed. *)

From Stdlib Require Import ZArith List String Ascii Bool Lia.
From Stdlib Require Import DecimalString.
From Stdlib Require Import DecimalZ.
From Equations Require Import Equations.
From Equations.Prop Require Import Logic.
Import ListNotations.

Local Open Scope list_scope.
Local Open Scope string_scope.
Local Open Scope Z_scope.

(* ===================================================================== *)
(** ** Exceptions *)
(* ===================================================================== *)

(** A Python exception, as far as the program looks at it: [str(e)]. *)
Record exn : Type := Exception { str : string }.

Inductive outcome (A : Type) : Type :=
| Returns (a : A)
| Raises (e : exn).
Arguments Returns {A} a.
Arguments Raises {A} e.

Module Outcome.

Definition bind {A B} (m : outcome A) (k : A -> outcome B) : outcome B :=
  match m with
  | Returns a => k a
  | Raises e => Raises e
  end.

(** [try: m  except Exception as e: h e] *)
Definition catch {A} (m : outcome A) (h : exn -> outcome A) : outcome A :=
  match m with
  | Returns a => Returns a
  | Raises e => h e
  end.

End Outcome.

(* ===================================================================== *)
(** ** The Python string operations the program uses *)
(* ===================================================================== *)

Module Py.

(** The one-character string written "\n" in the source. *)
Definition nl_char : ascii := "010"%char.
Definition nl : string := String nl_char "".

(** [len(s)] *)
Definition len (s : string) : Z := Z.of_nat (String.length s).

(** [s[:n]] for a literal [n >= 0]. *)
Fixpoint take (n : nat) (s : string) : string :=
  match n, s with
  | S n', String c r => String c (take n' r)
  | _, _ => ""
  end.

Definition slice_to (n : Z) (s : string) : string := take (Z.to_nat n) s.

(** [str(n)] for an [int]. *)
Definition str_int (n : Z) : string := NilZero.string_of_int (Z.to_int n).

(** [c.isspace()] on the first 256 code points. *)
Definition isspace (c : ascii) : bool :=
  let n := N_of_ascii c in
  (((9 <=? n) && (n <=? 13)) || ((28 <=? n) && (n <=? 32))
   || (n =? 133) || (n =? 160))%N.

Fixpoint lstrip (s : string) : string :=
  match s with
  | String c r => if isspace c then lstrip r else s
  | "" => ""
  end.

Fixpoint rev_onto (s acc : string) : string :=
  match s with
  | String c r => rev_onto r (String c acc)
  | "" => acc
  end.

Definition reverse (s : string) : string := rev_onto s "".

Definition rstrip (s : string) : string := reverse (lstrip (reverse s)).

(** [s.strip()] *)
Definition strip (s : string) : string := rstrip (lstrip s).

(** Truth value of a [str]: non-empty. *)
Definition truthy (s : string) : bool :=
  match s with
  | "" => false
  | String _ _ => true
  end.

(** [c.lower()] on the first 256 code points: A-Z and the Latin-1
    capitals (all of 0xC0-0xDE but the multiplication sign). *)
Definition lower_char (c : ascii) : ascii :=
  let n := N_of_ascii c in
  if (((65 <=? n) && (n <=? 90))
      || ((192 <=? n) && (n <=? 222) && negb (n =? 215)))%N
  then ascii_of_N (n + 32) else c.

Fixpoint lower (s : string) : string :=
  match s with
  | String c r => String (lower_char c) (lower r)
  | "" => ""
  end.

(** [sub in s] *)
Fixpoint contains (sub s : string) : bool :=
  prefix sub s ||
  match s with
  | String _ r => contains sub r
  | "" => false
  end.

(** ["\n\n" in s] *)
Fixpoint has_nlnl (s : string) : bool :=
  match s with
  | String a (String b _ as t) =>
      (Ascii.eqb a nl_char && Ascii.eqb b nl_char) || has_nlnl t
  | _ => false
  end.

(** [s.replace("\n\n", "\n")]: the non-overlapping occurrences, found
    from the left, are each replaced. *)
Fixpoint replace_nlnl (s : string) : string :=
  match s with
  | String a (String b r as t) =>
      if Ascii.eqb a nl_char && Ascii.eqb b nl_char
      then String nl_char (replace_nlnl r)
      else String a (replace_nlnl t)
  | _ => s
  end.

(** [sep.join(l)] *)
Definition join (sep : string) (l : list string) : string :=
  String.concat sep l.

End Py.

(** One pass of [replace] never lengthens the text, and shortens it when
    there is something to replace: the measure of the cleaning loop. *)
Lemma replace_nlnl_length (n : nat) :
  forall s, (String.length s <= n)%nat ->
    (String.length (Py.replace_nlnl s) <= String.length s)%nat /\
    (Py.has_nlnl s = true ->
     (String.length (Py.replace_nlnl s) < String.length s)%nat).
Proof.
  induction n as [|n IH]; intros s Hn.
  - destruct s; simpl in *; [split; [lia | discriminate] | lia].
  - destruct s as [|a [|b r]]; simpl in *.
    + split; [lia | discriminate].
    + split; [lia | discriminate].
    + destruct (Ascii.eqb a Py.nl_char && Ascii.eqb b Py.nl_char) eqn:E; simpl.
      * destruct (IH r) as [Hle _]; [lia |]. split; intros; lia.
      * destruct (IH (String b r)) as [Hle Hlt]; [simpl; lia |].
        simpl in Hle, Hlt. split; [lia |].
        intros H. specialize (Hlt H). lia.
Qed.

Lemma replace_nlnl_shrinks (s : string) :
  Py.has_nlnl s = true ->
  (String.length (Py.replace_nlnl s) < String.length s)%nat.
Proof.
  intros H. now apply (replace_nlnl_length (String.length s) s (le_n _)).
Qed.

(* ===================================================================== *)
(** ** tools.py: [FinancialDocumentTool] *)
(* ===================================================================== *)

(** What the file system and PyPDF2 answer for one path that exists.
    [getsize] is [os.path.getsize]: the size, or the [OSError] of a file
    that cannot be examined any more.  [PdfReader] is what
    [open(path, 'rb')], [PyPDF2.PdfReader(file)] and [pdf_reader.pages]
    give: an exception, or the pages, each of whose [extract_text()]
    returns text or raises. *)
Record File : Type := {
  getsize : outcome Z;
  PdfReader : outcome (list (outcome string))
}.

(** [None] when [os.path.exists(path)] is false. *)
Definition FileSystem : Type := string -> option File.

Module FinancialDocumentTool.

(** [while "\n\n" in content: content = content.replace("\n\n", "\n")] *)
Equations clean (content : string) : string
  by wf (String.length content) lt :=
  clean content with inspect (Py.has_nlnl content) := {
    | exist _ true H => clean (Py.replace_nlnl content)
    | exist _ false _ => content }.
Next Obligation. now apply replace_nlnl_shrinks. Qed.

(** The body of [for page_num in range(len(pdf_reader.pages))],
    threading [full_report]. *)
Fixpoint read_pages (pages : list (outcome string)) (full_report : string)
  : outcome string :=
  match pages with
  | [] => Returns full_report
  | page :: rest =>
      Outcome.bind page (fun content =>
      read_pages rest (full_report ++ clean content ++ Py.nl))
  end.

Definition truncation_marker : string :=
  Py.nl ++ Py.nl ++ "[Document truncated for processing...]".

(** The [try] block of [_run], lines 34-59. *)
Definition run_body (fs : FileSystem) (path : string) : outcome string :=
  match fs path with
  | None => Returns ("Error: PDF file not found at " ++ path)
  | Some file =>
      Outcome.bind (PdfReader file) (fun pages =>
      Outcome.bind (read_pages pages "") (fun full_report =>
      if Py.len full_report >? 10000
      then Returns (Py.slice_to 10000 full_report ++ truncation_marker)
      else Returns (if Py.truthy (Py.strip full_report)
                    then full_report
                    else "No readable content found in PDF")))
  end.

(** [_run], with its [except Exception as e]. *)
Definition _run (fs : FileSystem) (path : string) : outcome string :=
  Outcome.catch (run_body fs path)
    (fun e => Returns ("Error reading PDF file: " ++ str e)).

End FinancialDocumentTool.

(* ===================================================================== *)
(** ** database.py: the two tables *)
(* ===================================================================== *)

(** Timestamps ([datetime.utcnow()], [time.time()]) are readings of one
    wall clock, in ticks of it; [processing_time] is a difference of two
    readings. *)
Definition timestamp : Type := Z.

Module AnalysisResult.
Record t : Type := {
  id : Z;
  user_id : Z;
  filename : string;
  file_size : Z;
  query : string;
  analysis_result : string;
  processing_time : Z;
  status : string;
  created_at : timestamp
}.
End AnalysisResult.

Module AnalysisQueue.
Record t : Type := {
  id : Z;
  user_id : Z;
  filename : string;
  file_path : string;
  query : string;
  status : string;
  priority : Z;
  created_at : timestamp;
  started_at : option timestamp;
  completed_at : option timestamp;
  error_message : option string
}.

(** Attribute assignments on a loaded row. *)
Definition set_status (s : string) (r : t) : t :=
  {| id := id r; user_id := user_id r; filename := filename r;
     file_path := file_path r; query := query r; status := s;
     priority := priority r; created_at := created_at r;
     started_at := started_at r; completed_at := completed_at r;
     error_message := error_message r |}.

Definition set_started_at (ts : timestamp) (r : t) : t :=
  {| id := id r; user_id := user_id r; filename := filename r;
     file_path := file_path r; query := query r; status := status r;
     priority := priority r; created_at := created_at r;
     started_at := Some ts; completed_at := completed_at r;
     error_message := error_message r |}.

Definition set_completed_at (ts : timestamp) (r : t) : t :=
  {| id := id r; user_id := user_id r; filename := filename r;
     file_path := file_path r; query := query r; status := status r;
     priority := priority r; created_at := created_at r;
     started_at := started_at r; completed_at := Some ts;
     error_message := error_message r |}.

Definition set_error_message (m : string) (r : t) : t :=
  {| id := id r; user_id := user_id r; filename := filename r;
     file_path := file_path r; query := query r; status := status r;
     priority := priority r; created_at := created_at r;
     started_at := started_at r; completed_at := completed_at r;
     error_message := Some m |}.
End AnalysisQueue.

(** The committed content of the SQLite file: rows in insertion order. *)
Record Database : Type := {
  analysis_queue : list AnalysisQueue.t;
  analysis_results : list AnalysisResult.t
}.

(** An [INTEGER PRIMARY KEY] left unset gets the largest key in the table
    plus one (1 in an empty table); keys are positive. *)
Definition next_id (ids : list Z) : Z := 1 + fold_right Z.max 0 ids.

Definition next_queue_id (d : Database) : Z :=
  next_id (map AnalysisQueue.id (analysis_queue d)).

Definition next_result_id (d : Database) : Z :=
  next_id (map AnalysisResult.id (analysis_results d)).

(** [INSERT INTO analysis_queue] *)
Definition insert_queue_item (row : AnalysisQueue.t) (d : Database) : Database :=
  {| analysis_queue := analysis_queue d ++ [row];
     analysis_results := analysis_results d |}.

(** [UPDATE analysis_queue SET ... WHERE id = ?] for a dirty row. *)
Definition update_queue_item (row : AnalysisQueue.t) (d : Database) : Database :=
  {| analysis_queue :=
       map (fun r => if AnalysisQueue.id r =? AnalysisQueue.id row
                     then row else r) (analysis_queue d);
     analysis_results := analysis_results d |}.

(** [INSERT INTO analysis_results] *)
Definition insert_result (row : AnalysisResult.t) (d : Database) : Database :=
  {| analysis_queue := analysis_queue d;
     analysis_results := analysis_results d ++ [row] |}.

(** [db.query(AnalysisQueue).filter(AnalysisQueue.id == queue_id).first()] *)
Definition get_queue_item (queue_id : Z) (d : Database) : option AnalysisQueue.t :=
  find (fun r => AnalysisQueue.id r =? queue_id) (analysis_queue d).

(* ===================================================================== *)
(** ** The world the queue manager runs in *)
(* ===================================================================== *)

(** The oracles.  [clock k] is the k-th reading of the wall clock,
    [commit_fault k] the exception raised by the k-th [db.commit()] that
    reaches the database ([None]: the commit succeeds),
    [pending_rollback e] the exception SQLAlchemy raises when a session
    whose commit raised [e] is committed again without a rollback,
    [redis_probe] the outcome of lines 28-31 of [queue_worker.py]
    (connect, ping, open the queue) and [enqueue_fault id] the exception
    [queue.enqueue] raises for the job of queue item [id].  Reads of the
    database are taken to succeed. *)
Record Env : Type := {
  fs : FileSystem;
  clock : nat -> timestamp;
  isoformat : timestamp -> string;
  commit_fault : nat -> option exn;
  pending_rollback : exn -> exn;
  REDIS_AVAILABLE : bool;
  redis_probe : outcome unit;
  enqueue_fault : Z -> option exn
}.

(** What changes while the program runs.  [store] is the database,
    [session_failure] the exception of a commit of the current session
    that raised and was not rolled back yet; [clock_reads] and [commits]
    index the oracles.  Three fields observe the run without influencing
    it: [engine_runs] counts the calls of [perform_analysis], [history]
    lists every committed state of the database, newest first (what a
    concurrent reader of the file may see), and [enqueued] the queue ids
    handed to the broker.

    One session is current at a time, the one opened last:
    [add_to_queue] has committed when [process_document] opens its own,
    and afterwards only closes. *)
Record World : Type := {
  store : Database;
  session_failure : option exn;
  clock_reads : nat;
  commits : nat;
  engine_runs : nat;
  history : list Database;
  enqueued : list Z
}.

(** State and exceptions; the state survives an exception. *)
Definition M (A : Type) : Type := World -> outcome A * World.

Definition ret {A} (a : A) : M A := fun w => (Returns a, w).

Definition raise {A} (e : exn) : M A := fun w => (Raises e, w).

Definition bind {A B} (m : M A) (k : A -> M B) : M B :=
  fun w =>
    match m w with
    | (Returns a, w') => k a w'
    | (Raises e, w') => (Raises e, w')
    end.

(** [try: m  except Exception as e: h e] *)
Definition try_except {A} (m : M A) (h : exn -> M A) : M A :=
  fun w =>
    match m w with
    | (Returns a, w') => (Returns a, w')
    | (Raises e, w') => h e w'
    end.

(** [try: m  finally: f], for an [f] that does not raise. *)
Definition try_finally {A} (m : M A) (f : World -> World) : M A :=
  fun w => let (o, w') := m w in (o, f w').

Definition lift {A} (o : outcome A) : M A := fun w => (o, w).

Definition gets {A} (f : World -> A) : M A := fun w => (Returns (f w), w).

Definition modify (f : World -> World) : M unit := fun w => (Returns tt, f w).

Notation "x <- m ;; k" := (bind m (fun x => k))
  (at level 61, m at next level, right associativity).
Notation "m ;;; k" := (bind m (fun _ => k))
  (at level 61, right associativity).

(** The database after a commit that succeeded; the new state joins the
    [history]. *)
Definition commit_store (d : Database) (w : World) : World :=
  {| store := d; session_failure := session_failure w;
     clock_reads := clock_reads w; commits := commits w;
     engine_runs := engine_runs w; history := d :: history w;
     enqueued := enqueued w |}.

Definition set_session (failure : option exn) (w : World) : World :=
  {| store := store w; session_failure := failure;
     clock_reads := clock_reads w; commits := commits w;
     engine_runs := engine_runs w; history := history w;
     enqueued := enqueued w |}.

Definition tick_clock (w : World) : World :=
  {| store := store w; session_failure := session_failure w;
     clock_reads := S (clock_reads w); commits := commits w;
     engine_runs := engine_runs w; history := history w;
     enqueued := enqueued w |}.

Definition tick_commits (w : World) : World :=
  {| store := store w; session_failure := session_failure w;
     clock_reads := clock_reads w; commits := S (commits w);
     engine_runs := engine_runs w; history := history w;
     enqueued := enqueued w |}.

Definition tick_engine (w : World) : World :=
  {| store := store w; session_failure := session_failure w;
     clock_reads := clock_reads w; commits := commits w;
     engine_runs := S (engine_runs w); history := history w;
     enqueued := enqueued w |}.

Definition push_enqueued (queue_id : Z) (w : World) : World :=
  {| store := store w; session_failure := session_failure w;
     clock_reads := clock_reads w; commits := commits w;
     engine_runs := engine_runs w; history := history w;
     enqueued := enqueued w ++ [queue_id] |}.

(* ===================================================================== *)
(** ** queue_worker.py *)
(* ===================================================================== *)

(** The dictionaries [process_document] returns. *)
Inductive process_result : Type :=
| Queue_item_not_found
    (* {"error": "Queue item not found"} *)
| Success (result_id : Z) (processing_time : Z) (analysis : string)
    (* {"status": "success", "result_id": .., "processing_time": .., "analysis": ..} *)
| Error (message : string).
    (* {"status": "error", "message": ..} *)

(** The dictionary [get_queue_status] returns. *)
Record queue_status : Type := {
  total : Z;
  pending : Z;
  processing : Z;
  completed : Z;
  failed : Z;
  redis_connected : bool
}.

(** The dictionary literal of [perform_analysis], in its order. *)
Definition financial_keywords : list (string * string) :=
  [ ("revenue", "Revenue/Sales data found");
    ("profit", "Profitability information identified");
    ("loss", "Loss information detected");
    ("cash flow", "Cash flow statements present");
    ("assets", "Asset information available");
    ("liabilities", "Liability data found");
    ("equity", "Equity information present");
    ("debt", "Debt information identified");
    ("investment", "Investment data found");
    ("dividend", "Dividend information present") ].

(** The text [perform_analysis] builds, given the timestamp it read. *)
Definition analysis_text (iso : string) (pdf_content query : string) : string :=
  let analysis :=
    Py.nl ++ "# Financial Document Analysis" ++ Py.nl ++
    Py.nl ++ "## Query: " ++ query ++ Py.nl ++
    Py.nl ++ "## Document Analysis:" ++ Py.nl ++
    "- Content length: " ++ Py.str_int (Py.len pdf_content) ++ " characters" ++ Py.nl ++
    "- Analysis timestamp: " ++ iso ++ Py.nl ++
    Py.nl ++ "## Key Findings:" ++ Py.nl in
  let findings :=
    flat_map (fun kd : string * string =>
                if Py.contains (Py.lower (fst kd)) (Py.lower pdf_content)
                then ["- " ++ snd kd] else [])
             financial_keywords in
  let analysis :=
    match findings with
    | _ :: _ => analysis ++ Py.join Py.nl findings
    | [] => analysis ++ "- No specific financial keywords detected"
    end in
  analysis ++ Py.nl ++ Py.nl ++ "## Document Preview (first 500 characters):" ++
  Py.nl ++ Py.slice_to 500 pdf_content ++ "...".

Section QueueManager.

Variable env : Env.

(** Lines 26-37: the module-level probe of the broker. *)
Definition REDIS_CONNECTED : bool :=
  if REDIS_AVAILABLE env then
    match redis_probe env with
    | Returns _ => true
    | Raises _ => false
    end
  else false.

(** [datetime.utcnow()] and [time.time()]: the next reading of the clock. *)
Definition utcnow : M timestamp :=
  fun w => (Returns (clock env (clock_reads w)), tick_clock w).

Definition time_time : M timestamp := utcnow.

(** [db = SessionLocal()]: a new session. *)
Definition SessionLocal : M unit := modify (set_session None).

(** [db.rollback()] *)
Definition rollback : M unit := modify (set_session None).

(** [db.close()] *)
Definition close : World -> World := set_session None.

(** [db.commit()] of a session whose pending changes are [tx].  A commit
    that raises leaves the database as it was, and the session refuses
    further commits until it is rolled back. *)
Definition commit (tx : Database -> Database) : M unit :=
  fun w =>
    match session_failure w with
    | Some cause => (Raises (pending_rollback env cause), w)
    | None =>
        match commit_fault env (commits w) with
        | Some e => (Raises e, set_session (Some e) (tick_commits w))
        | None => (Returns tt, commit_store (tx (store w)) (tick_commits w))
        end
    end.

(** Lines 58-59: [db.add(queue_item); db.commit()].  The flush reads the
    clock for [created_at] and assigns the key; the result is
    [queue_item.id]. *)
Definition add_queue_item_and_commit
    (queue_item : Z -> timestamp -> AnalysisQueue.t) : M Z :=
  now <- utcnow ;;
  queue_id <- gets (fun w => next_queue_id (store w)) ;;
  commit (insert_queue_item (queue_item queue_id now)) ;;;
  ret queue_id.

(** Lines 117-123: [db.add(result)], the assignments to [queue_item],
    [db.commit()].  The result is [result.id].  The flush is taken to
    read the clock for [created_at] before it can raise; a flush that
    raises on its first statement reads the clock one time less, so that
    after a commit that raised [clock_reads] is one lower than here. *)
Definition add_result_and_commit
    (result : Z -> timestamp -> AnalysisResult.t)
    (queue_item : AnalysisQueue.t) : M Z :=
  now <- utcnow ;;
  result_id <- gets (fun w => next_result_id (store w)) ;;
  commit (fun d => update_queue_item queue_item
                     (insert_result (result result_id now) d)) ;;;
  ret result_id.

(** [queue.enqueue(self.process_document, queue_item.id, ...)]; the
    result is [job.id]. *)
Definition enqueue (queue_id : Z) : M string :=
  fun w =>
    match enqueue_fault env queue_id with
    | Some e => (Raises e, w)
    | None => (Returns ("analysis_" ++ Py.str_int queue_id),
               push_enqueued queue_id w)
    end.

(** [perform_analysis], lines 147-193. *)
Definition perform_analysis (pdf_content query : string) : M string :=
  modify tick_engine ;;;
  try_except
    (now <- utcnow ;;
     ret (analysis_text (isoformat env now) pdf_content query))
    (fun e => ret ("Error in analysis: " ++ str e)).

(** Line 111:
    [os.path.getsize(path) if os.path.exists(path) else 0] *)
Definition file_size_of (path : string) : outcome Z :=
  match fs env path with
  | Some file => getsize file
  | None => Returns 0
  end.

(** The [AnalysisResult(...)] of lines 108-116, before the flush gives it
    its key and [created_at]. *)
Definition new_result (queue_item : AnalysisQueue.t) (file_size : Z)
    (analysis : string) (processing_time : Z)
    (result_id : Z) (created : timestamp) : AnalysisResult.t :=
  {| AnalysisResult.id := result_id;
     AnalysisResult.user_id := AnalysisQueue.user_id queue_item;
     AnalysisResult.filename := AnalysisQueue.filename queue_item;
     AnalysisResult.file_size := file_size;
     AnalysisResult.query := AnalysisQueue.query queue_item;
     AnalysisResult.analysis_result := analysis;
     AnalysisResult.processing_time := processing_time;
     AnalysisResult.status := "completed";
     AnalysisResult.created_at := created |}.

(** [process_document], lines 81-145. *)
Definition process_document (queue_id : Z) : M process_result :=
  SessionLocal ;;;
  start_time <- time_time ;;
  try_finally
    (try_except
       (queue_item <- gets (fun w => get_queue_item queue_id (store w)) ;;
        match queue_item with
        | None => ret Queue_item_not_found
        | Some queue_item =>
            now <- utcnow ;;
            let queue_item :=
              AnalysisQueue.set_started_at now
                (AnalysisQueue.set_status "processing" queue_item) in
            commit (update_queue_item queue_item) ;;;
            try_except
              (pdf_content <-
                 lift (FinancialDocumentTool._run (fs env)
                         (AnalysisQueue.file_path queue_item)) ;;
               analysis <-
                 perform_analysis pdf_content (AnalysisQueue.query queue_item) ;;
               end_time <- time_time ;;
               let processing_time := end_time - start_time in
               file_size <-
                 lift (file_size_of (AnalysisQueue.file_path queue_item)) ;;
               now <- utcnow ;;
               result_id <-
                 add_result_and_commit
                   (new_result queue_item file_size analysis processing_time)
                   (AnalysisQueue.set_completed_at now
                      (AnalysisQueue.set_status "completed" queue_item)) ;;
               ret (Success result_id processing_time analysis))
              (fun e =>
                 now <- utcnow ;;
                 commit (update_queue_item
                           (AnalysisQueue.set_completed_at now
                              (AnalysisQueue.set_error_message (str e)
                                 (AnalysisQueue.set_status "failed" queue_item)))) ;;;
                 ret (Error (str e)))
        end)
       (fun e => rollback ;;; ret (Error (str e))))
    close.

(** The [AnalysisQueue(...)] of lines 50-57, before the flush. *)
Definition new_queue_item
    (user_id : Z) (filename file_path query : string) (priority : Z)
    (queue_id : Z) (created : timestamp) : AnalysisQueue.t :=
  {| AnalysisQueue.id := queue_id;
     AnalysisQueue.user_id := user_id;
     AnalysisQueue.filename := filename;
     AnalysisQueue.file_path := file_path;
     AnalysisQueue.query := query;
     AnalysisQueue.status := "pending";
     AnalysisQueue.priority := priority;
     AnalysisQueue.created_at := created;
     AnalysisQueue.started_at := None;
     AnalysisQueue.completed_at := None;
     AnalysisQueue.error_message := None |}.

(** [add_to_queue], lines 45-79. *)
Definition add_to_queue
    (user_id : Z) (filename file_path query : string) (priority : Z) : M string :=
  SessionLocal ;;;
  try_finally
    (try_except
       (queue_id <-
          add_queue_item_and_commit
            (new_queue_item user_id filename file_path query priority) ;;
        if REDIS_CONNECTED then
          job_id <- enqueue queue_id ;;
          ret ("queued_redis_" ++ job_id)
        else
          process_document queue_id ;;;
          ret ("processed_immediate_" ++ Py.str_int queue_id))
       (fun e => rollback ;;; raise e))
    close.


(** [query.filter(AnalysisQueue.status == s).count()] *)
Definition count_status (s : string) (query : list AnalysisQueue.t) : Z :=
  Z.of_nat (List.length
    (filter (fun r => String.eqb (AnalysisQueue.status r) s) query)).

(** [get_queue_status], lines 195-218.  [if user_id:] on an
    [Optional[int]] is false for [None] and for [0]. *)
Definition get_queue_status (user_id : option Z) : M queue_status :=
  SessionLocal ;;;
  try_finally
    (query <- gets (fun w => analysis_queue (store w)) ;;
     let query :=
       match user_id with
       | Some u =>
           if negb (u =? 0)
           then filter (fun r => AnalysisQueue.user_id r =? u) query
           else query
       | None => query
       end in
     ret {| total := Z.of_nat (List.length query);
            pending := count_status "pending" query;
            processing := count_status "processing" query;
            completed := count_status "completed" query;
            failed := count_status "failed" query;
            redis_connected := REDIS_CONNECTED |})
    close.

End QueueManager.

(* ===================================================================== *)
(** ** Runs of the subsystem and the notions of its specification *)
(* ===================================================================== *)

(** Submissions and executions, one after the other.  [Execute] is what a
    worker does with a delivered job. *)
Inductive operation : Type :=
| Submit (user_id : Z) (filename file_path query : string) (priority : Z)
| Execute (queue_id : Z).

Definition run_operation (env : Env) (op : operation) (w : World) : World :=
  match op with
  | Submit user_id filename file_path query priority =>
      snd (add_to_queue env user_id filename file_path query priority w)
  | Execute queue_id => snd (process_document env queue_id w)
  end.

Definition run (env : Env) (ops : list operation) (w : World) : World :=
  fold_left (fun w op => run_operation env op w) ops w.

(** The status of a job in a database, if the job is there. *)
Definition job_status (queue_id : Z) (d : Database) : option string :=
  option_map AnalysisQueue.status (get_queue_item queue_id d).

(** The states of the job state machine. *)
Definition is_terminal (s : string) : bool :=
  String.eqb s "completed" || String.eqb s "failed".

Definition is_open (s : string) : bool :=
  String.eqb s "pending" || String.eqb s "processing".

Definition rank (s : string) : option nat :=
  if String.eqb s "pending" then Some 0%nat
  else if String.eqb s "processing" then Some 1%nat
  else if is_terminal s then Some 2%nat
  else None.

(** [forward s s']: [s'] is [s], or comes after it in
    pending -> processing -> {completed, failed}. *)
Definition forward (s s' : string) : bool :=
  String.eqb s s' ||
  match rank s, rank s' with
  | Some a, Some b => Nat.ltb a b
  | _, _ => false
  end.

(** The guard the code does not have: an execution is guarded when the
    job it is delivered for is unknown, pending or processing. *)
Definition guarded_operation (op : operation) (d : Database) : bool :=
  match op with
  | Submit _ _ _ _ _ => true
  | Execute queue_id =>
      match job_status queue_id d with
      | Some s => is_open s
      | None => true
      end
  end.

Fixpoint guarded (env : Env) (ops : list operation) (w : World) : bool :=
  match ops with
  | [] => true
  | op :: rest =>
      guarded_operation op (store w) && guarded env rest (run_operation env op w)
  end.

(** The timestamp and error-field invariant of a job record. *)
Definition is_set {A} (o : option A) : bool :=
  match o with
  | Some _ => true
  | None => false
  end.

Definition non_empty (o : option string) : bool :=
  match o with
  | Some m => Py.truthy m
  | None => false
  end.

Definition row_invariant (r : AnalysisQueue.t) : bool :=
  let s := AnalysisQueue.status r in
  Bool.eqb (is_set (AnalysisQueue.started_at r))
           (String.eqb s "processing" || is_terminal s)
  && Bool.eqb (is_set (AnalysisQueue.completed_at r)) (is_terminal s)
  && (if is_terminal s
      then match AnalysisQueue.started_at r, AnalysisQueue.completed_at r with
           | Some started, Some finished => started <=? finished
           | _, _ => false
           end
      else true)
  && Bool.eqb (non_empty (AnalysisQueue.error_message r)) (String.eqb s "failed").

Definition store_invariant (d : Database) : bool :=
  forallb row_invariant (analysis_queue d).

(** Assumptions on the oracles used by some of the properties. *)
Definition clock_monotone (env : Env) : Prop :=
  forall i j : nat, (i <= j)%nat -> clock env i <= clock env j.

Definition errors_have_messages (env : Env) : Prop :=
  forall path file e,
    fs env path = Some file -> getsize file = Raises e -> str e <> "".



(** The text [_run] returns ([_run] never raises, see [run_returns]). *)
Definition run_text (fs : FileSystem) (path : string) : string :=
  match FinancialDocumentTool._run fs path with
  | Returns s => s
  | Raises e => ""
  end.

(** [evolves d d']: every job of [d] is still in [d'], its status has not
    moved backward, and the record is the same if it was terminal. *)
Definition evolves (d d' : Database) : Prop :=
  forall q r,
    get_queue_item q d = Some r ->
    exists r',
      get_queue_item q d' = Some r' /\
      forward (AnalysisQueue.status r) (AnalysisQueue.status r') = true /\
      (is_terminal (AnalysisQueue.status r) = true -> r' = r).

(** The ways [process_document] can go for a job that is there, with the
    database each one leaves. *)
Inductive process_outcome (env : Env) (w : World) (r : AnalysisQueue.t)
  : Database -> Prop :=
| Claim_refused :
    process_outcome env w r (store w)
| Left_processing :
    process_outcome env w r
      (update_queue_item
         (AnalysisQueue.set_started_at (clock env (S (clock_reads w)))
            (AnalysisQueue.set_status "processing" r)) (store w))
| Completed (result : AnalysisResult.t) :
    process_outcome env w r
      (update_queue_item
         (AnalysisQueue.set_completed_at (clock env (4 + clock_reads w))
            (AnalysisQueue.set_status "completed"
               (AnalysisQueue.set_started_at (clock env (S (clock_reads w)))
                  (AnalysisQueue.set_status "processing" r))))
         (insert_result result
            (update_queue_item
               (AnalysisQueue.set_started_at (clock env (S (clock_reads w)))
                  (AnalysisQueue.set_status "processing" r)) (store w))))
| Failed (e : exn) :
    file_size_of env (AnalysisQueue.file_path r) = Raises e ->
    process_outcome env w r
      (update_queue_item
         (AnalysisQueue.set_completed_at (clock env (4 + clock_reads w))
            (AnalysisQueue.set_error_message (str e)
               (AnalysisQueue.set_status "failed"
                  (AnalysisQueue.set_started_at (clock env (S (clock_reads w)))
                     (AnalysisQueue.set_status "processing" r)))))
         (update_queue_item
            (AnalysisQueue.set_started_at (clock env (S (clock_reads w)))
               (AnalysisQueue.set_status "processing" r)) (store w))).

(* ===================================================================== *)
(** ** Concrete scenarios *)
(* ===================================================================== *)

Module Scenario.

Fixpoint replicate (n : nat) (c : ascii) : string :=
  match n with
  | O => ""
  | S n' => String c (replicate n' c)
  end.

(** 10001 characters and no line feed. *)
Definition long_text : string := replicate (Z.to_nat 10001) "x"%char.

Definition vanished : exn :=
  Exception "[Errno 2] No such file or directory: 'vanishing.pdf'".

(** A readable report, a file PyPDF2 rejects, a long document, a file
    that is deleted while its job runs; no other path exists. *)
Definition files : FileSystem :=
  fun path =>
    if String.eqb path "report.pdf" then
      Some {| getsize := Returns 2048;
              PdfReader := Returns [Returns ("Revenue grew." ++ Py.nl ++ Py.nl
                                             ++ "Debt fell.")] |}
    else if String.eqb path "broken.pdf" then
      Some {| getsize := Returns 3;
              PdfReader := Raises (Exception "EOF marker not found") |}
    else if String.eqb path "long.pdf" then
      Some {| getsize := Returns 10001;
              PdfReader := Returns [Returns long_text] |}
    else if String.eqb path "vanishing.pdf" then
      Some {| getsize := Raises vanished;
              PdfReader := Returns [Returns "Profit and loss."] |}
    else None.

Definition locked : exn := Exception "database is locked".

Definition refused : exn := Exception "Connection refused".

(** An environment whose clock reads 100, 101, ...; [faulty] lists the
    commits that raise, [connected] tells whether the probe of the broker
    succeeds and [enqueue_ok] whether [queue.enqueue] does. *)
Definition environment (connected enqueue_ok : bool) (faulty : list nat) : Env :=
  {| fs := files;
     clock := fun k => 100 + Z.of_nat k;
     isoformat := Py.str_int;
     commit_fault := fun k => if existsb (Nat.eqb k) faulty
                              then Some locked else None;
     pending_rollback :=
       fun e => Exception ("Session is inactive, rollback first: " ++ str e);
     REDIS_AVAILABLE := true;
     redis_probe := if connected then Returns tt else Raises refused;
     enqueue_fault := fun _ => if enqueue_ok then None else Some refused |}.

(** No broker, no storage fault. *)
Definition fallback : Env := environment false true [].

(** An empty database, nothing done yet. *)
Definition initial : World :=
  {| store := {| analysis_queue := []; analysis_results := [] |};
     session_failure := None;
     clock_reads := 0; commits := 0; engine_runs := 0;
     history := []; enqueued := [] |}.

Definition submit_report : operation :=
  Submit 7 "report.pdf" "report.pdf" "What is the revenue?" 1.

Definition submit_missing : operation :=
  Submit 7 "gone.pdf" "gone.pdf" "What is the revenue?" 1.

Definition submit_vanishing : operation :=
  Submit 7 "vanishing.pdf" "vanishing.pdf" "What is the profit?" 1.

Definition job (id user_id : Z) (status : string)
    (started_at completed_at : option timestamp)
    (error_message : option string) : AnalysisQueue.t :=
  {| AnalysisQueue.id := id;
     AnalysisQueue.user_id := user_id;
     AnalysisQueue.filename := "report.pdf";
     AnalysisQueue.file_path := "report.pdf";
     AnalysisQueue.query := "What is the revenue?";
     AnalysisQueue.status := status;
     AnalysisQueue.priority := 1;
     AnalysisQueue.created_at := 100;
     AnalysisQueue.started_at := started_at;
     AnalysisQueue.completed_at := completed_at;
     AnalysisQueue.error_message := error_message |}.

(** A database with three jobs, of owners 7, 7 and 8. *)
Definition three_jobs : World :=
  {| store :=
       {| analysis_queue :=
            [ job 1 7 "completed" (Some 101) (Some 104) None;
              job 2 7 "pending" None None None;
              job 3 8 "failed" (Some 110) (Some 115)
                (Some "[Errno 13] Permission denied: 'report.pdf'") ];
          analysis_results := [] |};
     session_failure := None;
     clock_reads := 20; commits := 8; engine_runs := 2;
     history := []; enqueued := [] |}.

End Scenario.

(* ===================================================================== *)
(** ** Further notions: the cleaning loop *)
(* ===================================================================== *)

(** One pass that keeps a line feed only when the next character is not
    one: every run of line feeds becomes a single line feed. *)
Fixpoint squeeze (s : string) : string :=
  match s with
  | String a (String b _ as t) =>
      if Ascii.eqb a Py.nl_char && Ascii.eqb b Py.nl_char
      then squeeze t
      else String a (squeeze t)
  | _ => s
  end.

(** The text without its line feeds. *)
Fixpoint without_nl (s : string) : string :=
  match s with
  | String a r =>
      if Ascii.eqb a Py.nl_char then without_nl r else String a (without_nl r)
  | "" => ""
  end.

(** Every character is white space for [str.strip]. *)
Fixpoint all_space (s : string) : bool :=
  match s with
  | String a r => Py.isspace a && all_space r
  | "" => true
  end.

(** Documents whose pages hold no text, for [_run]. *)
Module Scans.

Definition blank_page : string := String " " (Py.nl ++ " ").

Definition files : FileSystem :=
  fun path =>
    if String.eqb path "scan.pdf" then
      Some {| getsize := Returns 512;
              PdfReader := Returns [Returns blank_page; Returns ""] |}
    else if String.eqb path "empty.pdf" then
      Some {| getsize := Returns 64; PdfReader := Returns [] |}
    else None.

End Scans.

(* ===================================================================== *)
(** ** tools.py: the two summary tools *)
(* ===================================================================== *)

(** [s.replace("  ", " ")]: the non-overlapping pairs of spaces, found
    from the left, are each replaced by one space. *)
Fixpoint replace_double_space (s : string) : string :=
  match s with
  | String a (String b r as t) =>
      if Ascii.eqb a " " && Ascii.eqb b " "
      then String " " (replace_double_space r)
      else String a (replace_double_space t)
  | _ => s
  end.

(** ["\n".join([f"- {point}" for point in points])] *)
Definition bullet_lines (points : list string) : string :=
  Py.join Py.nl (map (fun point => "- " ++ point) points).

Module InvestmentAnalysisTool.

(** Lines 86-94: the three tests, in their order. *)
Definition analysis_points (processed_data : string) : list string :=
  ((if Py.contains "revenue" (Py.lower processed_data)
    then ["Revenue data identified for trend analysis"] else [])
   ++ (if Py.contains "profit" (Py.lower processed_data)
          || Py.contains "earnings" (Py.lower processed_data)
       then ["Profitability metrics available for evaluation"] else [])
   ++ (if Py.contains "cash flow" (Py.lower processed_data)
       then ["Cash flow information present for liquidity assessment"]
       else []))%list.

(** The [try] block of [_run], lines 79-96. *)
Definition run_body (financial_data : string) : outcome string :=
  let processed_data := financial_data in
  let processed_data := replace_double_space processed_data in
  Returns ("Investment Analysis Summary:" ++ Py.nl
           ++ bullet_lines (analysis_points processed_data)).

Definition _run (financial_data : string) : outcome string :=
  Outcome.catch (run_body financial_data)
    (fun e => Returns ("Error in investment analysis: " ++ str e)).

End InvestmentAnalysisTool.

Module RiskAssessmentTool.

(** Lines 115-123: the three tests, in their order. *)
Definition risk_factors (financial_data : string) : list string :=
  ((if Py.contains "debt" (Py.lower financial_data)
    then ["Debt levels require monitoring for leverage risk"] else [])
   ++ (if Py.contains "volatile" (Py.lower financial_data)
          || Py.contains "uncertainty" (Py.lower financial_data)
       then ["Market volatility factors identified"] else [])
   ++ (if Py.contains "competition" (Py.lower financial_data)
       then ["Competitive pressures noted in market analysis"] else []))%list.

(** The [try] block of [_run], lines 114-125. *)
Definition run_body (financial_data : string) : outcome string :=
  Returns ("Risk Assessment Summary:" ++ Py.nl
           ++ bullet_lines (risk_factors financial_data)).

Definition _run (financial_data : string) : outcome string :=
  Outcome.catch (run_body financial_data)
    (fun e => Returns ("Error in risk assessment: " ++ str e)).

End RiskAssessmentTool.

(* ===================================================================== *)
(** ** Further notions: keys, submissions, stored results *)
(* ===================================================================== *)

Definition queue_ids (d : Database) : list Z :=
  map AnalysisQueue.id (analysis_queue d).

Definition result_ids (d : Database) : list Z :=
  map AnalysisResult.id (analysis_results d).

(** The fields of a job record that [add_to_queue] writes and
    [process_document] never assigns. *)
Definition same_submission (r r' : AnalysisQueue.t) : Prop :=
  AnalysisQueue.id r' = AnalysisQueue.id r /\
  AnalysisQueue.user_id r' = AnalysisQueue.user_id r /\
  AnalysisQueue.filename r' = AnalysisQueue.filename r /\
  AnalysisQueue.file_path r' = AnalysisQueue.file_path r /\
  AnalysisQueue.query r' = AnalysisQueue.query r /\
  AnalysisQueue.priority r' = AnalysisQueue.priority r /\
  AnalysisQueue.created_at r' = AnalysisQueue.created_at r.

(** [db_grows more d d']: from [d] to [d'] job records were only added at
    the end or rewritten in place with their submission kept, and the
    rows [more] were added at the end of the results. *)
Definition db_grows (more : list AnalysisResult.t) (d d' : Database) : Prop :=
  (exists new, queue_ids d' = (queue_ids d ++ new)%list) /\
  (NoDup (queue_ids d) -> NoDup (queue_ids d')) /\
  (forall q r, get_queue_item q d = Some r ->
     exists r', get_queue_item q d' = Some r' /\ same_submission r r') /\
  analysis_results d' = (analysis_results d ++ more)%list /\
  (NoDup (result_ids d) -> NoDup (result_ids d')).

(** [grows w w']: the database grew as above, every added result has
    status "completed" and was preceded by a call of [perform_analysis]. *)
Definition grows (w w' : World) : Prop :=
  exists more,
    db_grows more (store w) (store w') /\
    Forall (fun res => AnalysisResult.status res = "completed") more /\
    (List.length more + engine_runs w <= engine_runs w')%nat.

(** The same environment when the broker cannot be reached. *)
Definition without_broker (env : Env) : Env :=
  {| fs := fs env;
     clock := clock env;
     isoformat := isoformat env;
     commit_fault := commit_fault env;
     pending_rollback := pending_rollback env;
     REDIS_AVAILABLE := REDIS_AVAILABLE env;
     redis_probe := Raises (Exception "Connection refused");
     enqueue_fault := enqueue_fault env |}.

(* ===================================================================== *)
(** ** enhanced_main.py: the two read endpoints of the queue *)
(* ===================================================================== *)

(** What an endpoint answers: the body it returns, or the
    [HTTPException] it raises. *)
Inductive http (A : Type) : Type :=
| Ok (body : A)
| HTTPException (status_code : Z) (detail : string).
Arguments Ok {A} body.
Arguments HTTPException {A} status_code detail.

(** [s.split(sep)] for a separator of one character. *)
Fixpoint split (sep : ascii) (s : string) : list string :=
  match s with
  | "" => [""]
  | String c r =>
      if Ascii.eqb c sep then "" :: split sep r
      else match split sep r with
           | field :: fields => String c field :: fields
           | [] => [String c ""]
           end
  end.

(** The dictionary [get_analysis_status] returns; a key that is not set
    is [None]. *)
Module StatusResponse.
Record t : Type := {
  queue_id : Z;
  status : string;
  created_at : timestamp;
  started_at : option timestamp;
  completed_at : option timestamp;
  error : option string;
  result_id : option Z;
  processing_time : option Z
}.
End StatusResponse.

(** The dictionary [get_analysis_result] returns. *)
Module ResultResponse.
Record t : Type := {
  id : Z;
  filename : string;
  query : string;
  analysis : string;
  processing_time : Z;
  status : string;
  created_at : timestamp
}.
End ResultResponse.

(** [db.query(AnalysisResult).filter(AnalysisResult.id == result_id).first()] *)
Definition get_result (result_id : Z) (d : Database) : option AnalysisResult.t :=
  find (fun res => AnalysisResult.id res =? result_id) (analysis_results d).

(** [get_analysis_result], lines 158-174. *)
Definition get_analysis_result (result_id : Z) (d : Database)
  : http ResultResponse.t :=
  match get_result result_id d with
  | None => HTTPException 404 "Analysis result not found"
  | Some result =>
      Ok {| ResultResponse.id := AnalysisResult.id result;
            ResultResponse.filename := AnalysisResult.filename result;
            ResultResponse.query := AnalysisResult.query result;
            ResultResponse.analysis := AnalysisResult.analysis_result result;
            ResultResponse.processing_time :=
              AnalysisResult.processing_time result;
            ResultResponse.status := AnalysisResult.status result;
            ResultResponse.created_at := AnalysisResult.created_at result |}
  end.

Section StatusEndpoint.

(** Python's [int(s)] on a [str]; [None] stands for its [ValueError]. *)
Variable int_of_str : string -> option Z.

(** The first row of
    [query.order_by(AnalysisResult.created_at.desc())]: which of the rows
    with the newest [created_at] comes first is SQLite's choice. *)
Variable newest_first : list AnalysisResult.t -> option AnalysisResult.t.

(** Lines 119-125: the id a handle stands for. *)
Definition actual_id (queue_id : string) : option Z :=
  if prefix "queued_redis_" queue_id
  then int_of_str (last (split "_" queue_id) "")
  else if prefix "processed_immediate_" queue_id
  then int_of_str (last (split "_" queue_id) "")
  else int_of_str queue_id.

(** Lines 143-146: the rows of the job's user and file name. *)
Definition results_of (queue_item : AnalysisQueue.t) (d : Database)
  : list AnalysisResult.t :=
  filter (fun res =>
            (AnalysisResult.user_id res =? AnalysisQueue.user_id queue_item)
            && String.eqb (AnalysisResult.filename res)
                          (AnalysisQueue.filename queue_item))
         (analysis_results d).

(** [get_analysis_status], lines 115-156. *)
Definition get_analysis_status (queue_id : string) (d : Database)
  : http StatusResponse.t :=
  match actual_id queue_id with
  | None => HTTPException 400 "Invalid queue ID format"
  | Some actual_id =>
      match get_queue_item actual_id d with
      | None => HTTPException 404 "Queue item not found"
      | Some queue_item =>
          let result :=
            if String.eqb (AnalysisQueue.status queue_item) "completed"
            then newest_first (results_of queue_item d)
            else None in
          Ok {| StatusResponse.queue_id := actual_id;
                StatusResponse.status := AnalysisQueue.status queue_item;
                StatusResponse.created_at := AnalysisQueue.created_at queue_item;
                StatusResponse.started_at := AnalysisQueue.started_at queue_item;
                StatusResponse.completed_at :=
                  AnalysisQueue.completed_at queue_item;
                StatusResponse.error :=
                  if non_empty (AnalysisQueue.error_message queue_item)
                  then AnalysisQueue.error_message queue_item
                  else None;
                StatusResponse.result_id :=
                  option_map AnalysisResult.id result;
                StatusResponse.processing_time :=
                  option_map AnalysisResult.processing_time result |}
      end
  end.

End StatusEndpoint.

(** The integer a decimal numeral denotes: digits, with ["-"] in front
    for a negative one. *)
Definition decimal (s : string) : option Z :=
  option_map Z.of_int (NilZero.int_of_string s).

(** [ORDER BY created_at DESC] that keeps, among rows of one
    [created_at], the one stored first. *)
Definition newest_stored_first (rows : list AnalysisResult.t)
  : option AnalysisResult.t :=
  fold_left
    (fun best row =>
       match best with
       | Some b =>
           if AnalysisResult.created_at b <? AnalysisResult.created_at row
           then Some row else Some b
       | None => Some row
       end)
    rows None.

(** [c in s] for a character. *)
Fixpoint has_char (c : ascii) (s : string) : bool :=
  match s with
  | String a r => Ascii.eqb a c || has_char c r
  | "" => false
  end.

(** What the page loop of [_run] adds to [full_report] for pages whose
    text is extracted: each text cleaned and followed by a line feed. *)
Fixpoint pages_text (texts : list string) : string :=
  match texts with
  | [] => ""
  | content :: rest =>
      (FinancialDocumentTool.clean content ++ Py.nl) ++ pages_text rest
  end.

(* ===================================================================== *)
(** ** Properties of the database operations *)
(* ===================================================================== *)

Lemma fold_max_above (ids : list Z) (i : Z) :
  In i ids -> i <= fold_right Z.max 0 ids.
Proof.
  induction ids as [|j ids IH]; simpl; [tauto |].
  intros [-> | H]; [lia | specialize (IH H); lia].
Qed.

Lemma next_id_fresh (ids : list Z) : ~ In (next_id ids) ids.
Proof.
  intros H. apply fold_max_above in H. unfold next_id in H. lia.
Qed.

Lemma get_queue_item_id q d r :
  get_queue_item q d = Some r -> AnalysisQueue.id r = q.
Proof.
  unfold get_queue_item. intros H. apply find_some in H.
  destruct H as [_ H]. now apply Z.eqb_eq in H.
Qed.

Lemma get_queue_item_in q d r :
  get_queue_item q d = Some r -> In r (analysis_queue d).
Proof.
  unfold get_queue_item. intros H. now apply find_some in H.
Qed.

Lemma get_queue_item_fresh d :
  get_queue_item (next_queue_id d) d = None.
Proof.
  destruct (get_queue_item (next_queue_id d) d) as [r|] eqn:E; [|reflexivity].
  exfalso. apply (next_id_fresh (map AnalysisQueue.id (analysis_queue d))).
  fold (next_queue_id d).
  rewrite <- (get_queue_item_id _ _ _ E).
  apply in_map. eapply get_queue_item_in; eauto.
Qed.

Lemma get_update_same q d r row :
  get_queue_item q d = Some r -> AnalysisQueue.id row = q ->
  get_queue_item q (update_queue_item row d) = Some row.
Proof.
  unfold get_queue_item, update_queue_item; simpl.
  intros H Hid. subst q.
  induction (analysis_queue d) as [|x l IH]; simpl in *.
  - discriminate.
  - destruct (AnalysisQueue.id x =? AnalysisQueue.id row) eqn:E; simpl.
    + rewrite Z.eqb_refl. reflexivity.
    + rewrite E. now apply IH.
Qed.

Lemma get_update_other q d row :
  AnalysisQueue.id row <> q ->
  get_queue_item q (update_queue_item row d) = get_queue_item q d.
Proof.
  unfold get_queue_item, update_queue_item; simpl.
  intros Hid. induction (analysis_queue d) as [|x l IH]; simpl; [reflexivity |].
  destruct (AnalysisQueue.id x =? AnalysisQueue.id row) eqn:E.
  - apply Z.eqb_eq in E.
    assert (H1 : (AnalysisQueue.id row =? q) = false) by now apply Z.eqb_neq.
    assert (H2 : (AnalysisQueue.id x =? q) = false) by (apply Z.eqb_neq; congruence).
    rewrite H1, H2. apply IH.
  - destruct (AnalysisQueue.id x =? q); [reflexivity | apply IH].
Qed.

Lemma get_insert_old q d r row :
  get_queue_item q d = Some r ->
  get_queue_item q (insert_queue_item row d) = Some r.
Proof.
  unfold get_queue_item, insert_queue_item; simpl.
  induction (analysis_queue d) as [|x l IH]; simpl; [discriminate |].
  destruct (AnalysisQueue.id x =? q); auto.
Qed.

Lemma get_insert_new d row :
  AnalysisQueue.id row = next_queue_id d ->
  get_queue_item (next_queue_id d) (insert_queue_item row d) = Some row.
Proof.
  intros Hid. pose proof (get_queue_item_fresh d) as Hf.
  unfold get_queue_item, insert_queue_item in *; simpl.
  induction (analysis_queue d) as [|x l IH] in Hf |- *; simpl in *.
  - rewrite Hid, Z.eqb_refl. reflexivity.
  - destruct (AnalysisQueue.id x =? next_queue_id d); [discriminate | now apply IH].
Qed.

(* ===================================================================== *)
(** ** Properties of [FinancialDocumentTool._run] *)
(* ===================================================================== *)

Lemma take_length (n : nat) : forall s,
  (n <= String.length s)%nat -> String.length (Py.take n s) = n.
Proof.
  induction n as [|n IH]; intros [|c r]; simpl; intros H; try lia.
  rewrite IH; lia.
Qed.

(** When the cleaning loop is left, its condition is false. *)
Lemma clean_has_no_blank_line (content : string) :
  Py.has_nlnl (FinancialDocumentTool.clean content) = false.
Proof.
  funelim (FinancialDocumentTool.clean content); assumption.
Qed.

Lemma run_returns (fs : FileSystem) (path : string) :
  FinancialDocumentTool._run fs path = Returns (run_text fs path).
Proof.
  unfold run_text, FinancialDocumentTool._run.
  destruct (FinancialDocumentTool.run_body fs path); reflexivity.
Qed.



(* ===================================================================== *)
(* ===================================================================== *)
(** ** What [process_document] does, commit by commit *)
(* ===================================================================== *)

Arguments analysis_text : simpl never.
Arguments update_queue_item : simpl never.
Arguments insert_queue_item : simpl never.
Arguments insert_result : simpl never.
Arguments next_result_id : simpl never.
Arguments next_queue_id : simpl never.
Arguments new_result : simpl never.
Arguments new_queue_item : simpl never.
Arguments get_queue_item : simpl never.
Arguments file_size_of : simpl never.
Arguments Py.str_int : simpl never.
Arguments String.append : simpl never.

Ltac run_code :=
  unfold process_document, add_to_queue, get_queue_status,
    add_queue_item_and_commit, add_result_and_commit, perform_analysis,
    enqueue, commit, SessionLocal, rollback, close, time_time, utcnow,
    bind, try_except, try_finally, gets, modify, lift, ret, raise;
  simpl.

Section ProcessDocument.

Variable env : Env.
Variable w : World.
Variable queue_id : Z.

Let c : nat := clock_reads w.
Let k : nat := commits w.

(** The world [process_document] leaves: its session is closed. *)
Let leaves (d : Database) (reads commits_done runs : nat)
    (committed : list Database) : World :=
  {| store := d; session_failure := None;
     clock_reads := reads + c; commits := commits_done + k;
     engine_runs := runs + engine_runs w;
     history := committed ++ history w; enqueued := enqueued w |}.

(** An unknown id: nothing but the clock is touched. *)
Lemma process_document_unknown :
  get_queue_item queue_id (store w) = None ->
  process_document env queue_id w
  = (Returns Queue_item_not_found, leaves (store w) 1 0 0 []).
Proof.
  intros Hget. run_code. rewrite Hget. reflexivity.
Qed.

Variable r : AnalysisQueue.t.
Hypothesis Hget : get_queue_item queue_id (store w) = Some r.

(** The row and the database after the commit of line 95. *)
Let claimed : AnalysisQueue.t :=
  AnalysisQueue.set_started_at (clock env (S c))
    (AnalysisQueue.set_status "processing" r).
Let d1 : Database := update_queue_item claimed (store w).

(** The analysis, and the database after the commit of line 123. *)
Let analysis : string :=
  analysis_text (isoformat env (clock env (2 + c)))
    (run_text (fs env) (AnalysisQueue.file_path r)) (AnalysisQueue.query r).
Let elapsed : Z := clock env (3 + c) - clock env c.
Let done : AnalysisQueue.t :=
  AnalysisQueue.set_completed_at (clock env (4 + c))
    (AnalysisQueue.set_status "completed" claimed).
Let d2 (size : Z) : Database :=
  update_queue_item done
    (insert_result
       (new_result claimed size analysis elapsed (next_result_id d1)
          (clock env (5 + c)))
       d1).

(** The database after the commit of line 137, reached from line 111. *)
Let broken (e : exn) : AnalysisQueue.t :=
  AnalysisQueue.set_completed_at (clock env (4 + c))
    (AnalysisQueue.set_error_message (str e)
       (AnalysisQueue.set_status "failed" claimed)).
Let d3 (e : exn) : Database := update_queue_item (broken e) d1.

(** The commit of line 95 raises: the outer handler answers, the record
    is as it was. *)
Lemma process_document_claim_fault (e : exn) :
  commit_fault env k = Some e ->
  process_document env queue_id w
  = (Returns (Error (str e)), leaves (store w) 2 1 0 []).
Proof.
  intros Hk. unfold k in *. run_code. rewrite Hget. simpl. rewrite Hk.
  reflexivity.
Qed.

(** Both commits succeed: the record is completed. *)
Lemma process_document_completes (size : Z) :
  commit_fault env k = None ->
  file_size_of env (AnalysisQueue.file_path r) = Returns size ->
  commit_fault env (S k) = None ->
  process_document env queue_id w
  = (Returns (Success (next_result_id d1) elapsed analysis),
     leaves (d2 size) 6 2 1 [d2 size; d1]).
Proof.
  intros Hk Hsize Hk1. unfold k in *. run_code. rewrite Hget. simpl.
  rewrite Hk. simpl. rewrite run_returns. simpl. rewrite Hsize. simpl.
  rewrite Hk1. reflexivity.
Qed.

(** The commit of line 123 raises.  The handler of line 132 commits
    again without a rollback, which the session refuses; the outer
    handler answers and the record stays in processing. *)
Lemma process_document_result_fault (size : Z) (e : exn) :
  commit_fault env k = None ->
  file_size_of env (AnalysisQueue.file_path r) = Returns size ->
  commit_fault env (S k) = Some e ->
  process_document env queue_id w
  = (Returns (Error (str (pending_rollback env e))),
     leaves d1 7 2 1 [d1]).
Proof.
  intros Hk Hsize Hk1. unfold k in *. run_code. rewrite Hget. simpl.
  rewrite Hk. simpl. rewrite run_returns. simpl. rewrite Hsize. simpl.
  rewrite Hk1. reflexivity.
Qed.

(** Line 111 raises and the commit of line 137 succeeds: the record is
    failed, with the message of the exception. *)
Lemma process_document_fails (e : exn) :
  commit_fault env k = None ->
  file_size_of env (AnalysisQueue.file_path r) = Raises e ->
  commit_fault env (S k) = None ->
  process_document env queue_id w
  = (Returns (Error (str e)), leaves (d3 e) 5 2 1 [d3 e; d1]).
Proof.
  intros Hk Hsize Hk1. unfold k in *. run_code. rewrite Hget. simpl.
  rewrite Hk. simpl. rewrite run_returns. simpl. rewrite Hsize. simpl.
  rewrite Hk1. reflexivity.
Qed.

(** Line 111 raises and so does the commit of line 137: the outer handler
    answers and the record stays in processing. *)
Lemma process_document_failure_fault (e e' : exn) :
  commit_fault env k = None ->
  file_size_of env (AnalysisQueue.file_path r) = Raises e ->
  commit_fault env (S k) = Some e' ->
  process_document env queue_id w
  = (Returns (Error (str e')), leaves d1 5 2 1 [d1]).
Proof.
  intros Hk Hsize Hk1. unfold k in *. run_code. rewrite Hget. simpl.
  rewrite Hk. simpl. rewrite run_returns. simpl. rewrite Hsize. simpl.
  rewrite Hk1. reflexivity.
Qed.

End ProcessDocument.

(** [process_document] never raises, every exception ends in one of its
    two handlers; it leaves its session closed and, for a job that is
    there, one of the databases of [process_outcome]. *)
Lemma process_document_returns (env : Env) (queue_id : Z) (w : World) :
  (exists result, fst (process_document env queue_id w) = Returns result) /\
  session_failure (snd (process_document env queue_id w)) = None /\
  match get_queue_item queue_id (store w) with
  | Some r =>
      process_outcome env w r (store (snd (process_document env queue_id w)))
  | None => store (snd (process_document env queue_id w)) = store w
  end.
Proof.
  destruct (get_queue_item queue_id (store w)) as [r|] eqn:Hget.
  - destruct (commit_fault env (commits w)) as [e|] eqn:Hk.
    { rewrite (process_document_claim_fault env w queue_id r Hget e Hk).
      cbn [fst snd store session_failure].
      split; [eexists; reflexivity |]. split; [reflexivity | constructor]. }
    destruct (file_size_of env (AnalysisQueue.file_path r)) as [size|e] eqn:Hs;
      destruct (commit_fault env (S (commits w))) as [e'|] eqn:Hk1.
    + rewrite (process_document_result_fault env w queue_id r Hget size e' Hk Hs Hk1).
      cbn [fst snd store session_failure].
      split; [eexists; reflexivity |]. split; [reflexivity | constructor].
    + rewrite (process_document_completes env w queue_id r Hget size Hk Hs Hk1).
      cbn [fst snd store session_failure].
      split; [eexists; reflexivity |]. split; [reflexivity | constructor].
    + rewrite (process_document_failure_fault env w queue_id r Hget e e' Hk Hs Hk1).
      cbn [fst snd store session_failure].
      split; [eexists; reflexivity |]. split; [reflexivity | constructor].
    + rewrite (process_document_fails env w queue_id r Hget e Hk Hs Hk1).
      cbn [fst snd store session_failure].
      split; [eexists; reflexivity |]. split; [reflexivity |].
      now constructor.
  - rewrite (process_document_unknown env w queue_id Hget).
    split; [eexists; reflexivity |]. split; reflexivity.
Qed.

(* ===================================================================== *)
(** ** What [add_to_queue] does *)
(* ===================================================================== *)

Section AddToQueue.

Variable env : Env.
Variable w : World.
Variables (user_id : Z) (filename file_path query : string) (priority : Z).

(** The key, the row and the world after the commit of line 59. *)
Let queue_id : Z := next_queue_id (store w).
Let queue_item : AnalysisQueue.t :=
  new_queue_item user_id filename file_path query priority queue_id
    (clock env (clock_reads w)).
Let submitted : World :=
  {| store := insert_queue_item queue_item (store w);
     session_failure := None;
     clock_reads := S (clock_reads w); commits := S (commits w);
     engine_runs := engine_runs w;
     history := insert_queue_item queue_item (store w) :: history w;
     enqueued := enqueued w |}.

Lemma submitted_queue_item :
  get_queue_item queue_id (store submitted) = Some queue_item.
Proof.
  unfold submitted; simpl. apply get_insert_new. reflexivity.
Qed.

(** The commit of line 59 raises: [db.rollback()], [raise e]. *)
Lemma add_to_queue_commit_fault (e : exn) :
  commit_fault env (commits w) = Some e ->
  add_to_queue env user_id filename file_path query priority w
  = (Raises e,
     {| store := store w; session_failure := None;
        clock_reads := S (clock_reads w); commits := S (commits w);
        engine_runs := engine_runs w; history := history w;
        enqueued := enqueued w |}).
Proof.
  intros Hk. run_code. rewrite Hk. reflexivity.
Qed.

(** The broker is connected and takes the job. *)
Lemma add_to_queue_queued :
  commit_fault env (commits w) = None ->
  REDIS_CONNECTED env = true ->
  enqueue_fault env queue_id = None ->
  add_to_queue env user_id filename file_path query priority w
  = (Returns ("queued_redis_" ++ "analysis_" ++ Py.str_int queue_id),
     push_enqueued queue_id submitted).
Proof.
  intros Hk Hc Hq. unfold queue_id in *. run_code. rewrite Hk. simpl.
  rewrite Hc. simpl. rewrite Hq. reflexivity.
Qed.

(** The broker is connected and [queue.enqueue] raises. *)
Lemma add_to_queue_enqueue_fault (e : exn) :
  commit_fault env (commits w) = None ->
  REDIS_CONNECTED env = true ->
  enqueue_fault env queue_id = Some e ->
  add_to_queue env user_id filename file_path query priority w
  = (Raises e, submitted).
Proof.
  intros Hk Hc Hq. unfold queue_id in *. run_code. rewrite Hk. simpl.
  rewrite Hc. simpl. rewrite Hq. reflexivity.
Qed.

(** The broker is not connected: [process_document] runs before the
    handle is returned, and its result is dropped. *)
Lemma add_to_queue_immediate :
  commit_fault env (commits w) = None ->
  REDIS_CONNECTED env = false ->
  add_to_queue env user_id filename file_path query priority w
  = (Returns ("processed_immediate_" ++ Py.str_int queue_id),
     close (snd (process_document env queue_id submitted))).
Proof.
  intros Hk Hc.
  destruct (process_document_returns env queue_id submitted) as [[result Hres] _].
  unfold add_to_queue, add_queue_item_and_commit, commit, SessionLocal,
    rollback, utcnow, bind, try_except, try_finally, gets, modify, ret, raise;
    simpl.
  rewrite Hk. simpl. rewrite Hc.
  fold queue_id. fold queue_item.
  change (commit_store (insert_queue_item queue_item (store w))
            (tick_commits (tick_clock (set_session None w))))
    with submitted.
  destruct (process_document env queue_id submitted) as [o w'].
  simpl in Hres. subst o. reflexivity.
Qed.

End AddToQueue.

(* ===================================================================== *)
(** ** Redelivery and the missing guard (C1, C4) *)
(* ===================================================================== *)

Lemma get_insert_result q res d :
  get_queue_item q (insert_result res d) = get_queue_item q d.
Proof. reflexivity. Qed.

Lemma get_after_update q d r row :
  get_queue_item q d = Some r ->
  AnalysisQueue.id row = AnalysisQueue.id r ->
  get_queue_item q (update_queue_item row d) = Some row.
Proof.
  intros Hget Hid. apply (get_update_same q d r row Hget).
  rewrite Hid. eapply get_queue_item_id; eauto.
Qed.

Lemma run_text_missing (fs : FileSystem) (path : string) :
  fs path = None ->
  run_text fs path = "Error: PDF file not found at " ++ path.
Proof.
  intros H. unfold run_text, FinancialDocumentTool._run,
    FinancialDocumentTool.run_body. rewrite H. reflexivity.
Qed.

Lemma file_size_of_missing (env : Env) (path : string) :
  fs env path = None -> file_size_of env path = Returns 0.
Proof. intros H. unfold file_size_of. rewrite H. reflexivity. Qed.

Section Records.

Variables (q : Z) (d : Database) (r : AnalysisQueue.t).
Hypothesis Hget : get_queue_item q d = Some r.
Variables (started finished : timestamp).

Let claimed : AnalysisQueue.t :=
  AnalysisQueue.set_started_at started
    (AnalysisQueue.set_status "processing" r).

(** The record of the job after each of the three commits. *)
Lemma get_claimed :
  get_queue_item q (update_queue_item claimed d) = Some claimed.
Proof.
  eapply get_after_update; [exact Hget | reflexivity].
Qed.

Lemma get_completed (result : AnalysisResult.t) :
  get_queue_item q
    (update_queue_item
       (AnalysisQueue.set_completed_at finished
          (AnalysisQueue.set_status "completed" claimed))
       (insert_result result (update_queue_item claimed d)))
  = Some (AnalysisQueue.set_completed_at finished
            (AnalysisQueue.set_status "completed" claimed)).
Proof.
  eapply get_after_update;
    [rewrite get_insert_result; apply get_claimed | reflexivity].
Qed.

Lemma get_failed (m : string) :
  get_queue_item q
    (update_queue_item
       (AnalysisQueue.set_completed_at finished
          (AnalysisQueue.set_error_message m
             (AnalysisQueue.set_status "failed" claimed)))
       (update_queue_item claimed d))
  = Some (AnalysisQueue.set_completed_at finished
            (AnalysisQueue.set_error_message m
               (AnalysisQueue.set_status "failed" claimed))).
Proof.
  eapply get_after_update; [apply get_claimed | reflexivity].
Qed.

End Records.

(** The four ways [process_document] can go on after the commit of line
    95 has succeeded. *)
Ltac after_claim env w q r Hget Hk :=
  let size := fresh "size" in
  let e := fresh "e" in
  let e' := fresh "e'" in
  let Hs := fresh "Hs" in
  let Hk1 := fresh "Hk1" in
  destruct (file_size_of env (AnalysisQueue.file_path r)) as [size|e] eqn:Hs;
  destruct (commit_fault env (S (commits w))) as [e'|] eqn:Hk1;
  [ rewrite (process_document_result_fault env w q r Hget size e' Hk Hs Hk1)
  | rewrite (process_document_completes env w q r Hget size Hk Hs Hk1)
  | rewrite (process_document_failure_fault env w q r Hget e e' Hk Hs Hk1)
  | rewrite (process_document_fails env w q r Hget e Hk Hs Hk1) ];
  cbn [fst snd store engine_runs history session_failure Nat.add app].

(** C1, as the code has it.  [process_document] does not look at the
    stored status.  For a known id, whatever the status of the record, as
    soon as the commit of line 95 succeeds the analysis runs once more and
    the record is overwritten: [started_at] is read anew from the clock
    and the status is processing, completed or failed.  When the file size
    can be read and the second commit succeeds too, the record is
    completed, with a new [completed_at], and one more result is stored.
    The database is left alone only for an unknown id. *)
Theorem process_document_has_no_guard
    (env : Env) (w : World) (queue_id : Z) :
  let w' := snd (process_document env queue_id w) in
  (forall r,
     get_queue_item queue_id (store w) = Some r ->
     commit_fault env (commits w) = None ->
     engine_runs w' = S (engine_runs w) /\
     exists row,
       get_queue_item queue_id (store w') = Some row /\
       AnalysisQueue.started_at row = Some (clock env (1 + clock_reads w)) /\
       (AnalysisQueue.status row = "processing" \/
        AnalysisQueue.status row = "completed" \/
        AnalysisQueue.status row = "failed")) /\
  (forall r size,
     get_queue_item queue_id (store w) = Some r ->
     commit_fault env (commits w) = None ->
     file_size_of env (AnalysisQueue.file_path r) = Returns size ->
     commit_fault env (S (commits w)) = None ->
     List.length (analysis_results (store w'))
     = S (List.length (analysis_results (store w))) /\
     exists row,
       get_queue_item queue_id (store w') = Some row /\
       AnalysisQueue.status row = "completed" /\
       AnalysisQueue.completed_at row = Some (clock env (4 + clock_reads w))) /\
  (get_queue_item queue_id (store w) = None ->
   fst (process_document env queue_id w) = Returns Queue_item_not_found /\
   store w' = store w /\ history w' = history w /\
   engine_runs w' = engine_runs w).
Proof.
  intros w'. subst w'. split; [| split].
  - intros r Hget Hk. after_claim env w queue_id r Hget Hk.
    + split; [reflexivity |]. eexists.
      split; [apply get_claimed; exact Hget |]. split; [reflexivity | auto].
    + split; [reflexivity |]. eexists.
      split; [apply get_completed; exact Hget |]. split; [reflexivity | auto].
    + split; [reflexivity |]. eexists.
      split; [apply get_claimed; exact Hget |]. split; [reflexivity | auto].
    + split; [reflexivity |]. eexists.
      split; [apply get_failed; exact Hget |]. split; [reflexivity | auto].
  - intros r size Hget Hk Hs Hk1.
    rewrite (process_document_completes env w queue_id r Hget size Hk Hs Hk1).
    cbn [snd store]. split.
    + unfold update_queue_item, insert_result; simpl.
      rewrite length_app. simpl. lia.
    + eexists. split; [apply get_completed; exact Hget |].
      split; reflexivity.
  - intros Hget. rewrite (process_document_unknown env w queue_id Hget).
    repeat split.
Qed.

(** C4, as the code has it.  When the file of a job does not exist and
    the two commits succeed, the job goes to processing and then to
    completed, not to failed: [_run] returns its "not found" sentence, the
    analysis is made of that sentence, a result of size 0 is stored and
    [error_message] is left as it was. *)
Theorem missing_file_completes
    (env : Env) (w : World) (queue_id : Z) (r : AnalysisQueue.t) :
  get_queue_item queue_id (store w) = Some r ->
  fs env (AnalysisQueue.file_path r) = None ->
  commit_fault env (commits w) = None ->
  commit_fault env (S (commits w)) = None ->
  let analysis :=
    analysis_text (isoformat env (clock env (2 + clock_reads w)))
      ("Error: PDF file not found at " ++ AnalysisQueue.file_path r)
      (AnalysisQueue.query r) in
  let w' := snd (process_document env queue_id w) in
  (exists result_id elapsed,
     fst (process_document env queue_id w)
     = Returns (Success result_id elapsed analysis)) /\
  (exists row,
     get_queue_item queue_id (store w') = Some row /\
     AnalysisQueue.status row = "completed" /\
     AnalysisQueue.error_message row = AnalysisQueue.error_message r) /\
  map (job_status queue_id) (firstn 2 (history w'))
  = [Some "completed"; Some "processing"] /\
  (exists result,
     analysis_results (store w') = (analysis_results (store w) ++ [result])%list /\
     AnalysisResult.file_size result = 0 /\
     AnalysisResult.analysis_result result = analysis).
Proof.
  intros Hget Hfs Hk Hk1 analysis w'. subst analysis w'.
  rewrite (process_document_completes env w queue_id r Hget 0 Hk
             (file_size_of_missing env _ Hfs) Hk1).
  rewrite (run_text_missing _ _ Hfs).
  cbn [fst snd store history firstn map Nat.add app].
  split; [do 2 eexists; reflexivity |]. split; [| split].
  - eexists. split; [apply get_completed; exact Hget |].
    split; reflexivity.
  - unfold job_status.
    rewrite (get_completed _ _ _ Hget), (get_claimed _ _ _ Hget). reflexivity.
  - eexists. split; [reflexivity |]. split; reflexivity.
Qed.

(** C1 does not hold of the code: a job that is completed is delivered
    again, and the analysis runs a second time, a second result is stored
    and the record is overwritten. *)
Lemma redelivery_runs_again :
  let w1 := run Scenario.fallback [Scenario.submit_report] Scenario.initial in
  let w2 := snd (process_document Scenario.fallback 1 w1) in
  job_status 1 (store w1) = Some "completed" /\
  engine_runs w1 = 1%nat /\
  engine_runs w2 = 2%nat /\
  List.length (analysis_results (store w2)) = 2%nat /\
  get_queue_item 1 (store w2) <> get_queue_item 1 (store w1).
Proof.
  vm_compute. repeat split; discriminate.
Qed.

(** An instance: job 1, completed, is delivered once more. *)
Lemma process_document_has_no_guard_witness :
  let w1 := run Scenario.fallback [Scenario.submit_report] Scenario.initial in
  engine_runs (snd (process_document Scenario.fallback 1 w1))
  = S (engine_runs w1).
Proof.
  intros w1.
  destruct (process_document_has_no_guard Scenario.fallback w1 1) as [H _].
  edestruct H as [H1 _]; [reflexivity | reflexivity | exact H1].
Defined.

(** C4 does not hold of the code: the job of a file that does not exist,
    taken from the broker's queue and executed, ends completed and has no
    error message. *)
Lemma missing_file_job_is_completed :
  let env := Scenario.environment true true [] in
  let w1 := run env [Scenario.submit_missing] Scenario.initial in
  let w2 := run env [Execute 1] w1 in
  fs env "gone.pdf" = None /\
  job_status 1 (store w1) = Some "pending" /\
  job_status 1 (store w2) = Some "completed" /\
  option_map AnalysisQueue.error_message (get_queue_item 1 (store w2))
  = Some None.
Proof.
  vm_compute. repeat split.
Qed.

(** An instance: the job of [gone.pdf], taken from the broker's queue. *)
Lemma missing_file_completes_witness :
  let env := Scenario.environment true true [] in
  let w1 := run env [Scenario.submit_missing] Scenario.initial in
  map (job_status 1) (firstn 2 (history (snd (process_document env 1 w1))))
  = [Some "completed"; Some "processing"].
Proof.
  intros env w1.
  edestruct (missing_file_completes env w1 1) as (_ & _ & H & _);
    [reflexivity | reflexivity | reflexivity | reflexivity | exact H].
Defined.

(* ===================================================================== *)
(** ** Submission (C3, C5, C7) *)
(* ===================================================================== *)

(** C3, as the code has it.  With the broker not connected, and when the
    commit of the submission succeeds, [add_to_queue] calls
    [process_document] before it returns, drops its result and returns
    "processed_immediate_{id}": the handle names the job and holds no
    status.  The status of the record then depends on what
    [process_document] met.  The job is still pending, and nothing was
    analysed, when the commit that claims it raised.  Otherwise the
    analysis ran, and the job is completed when the file size was read and
    the result committed, failed when the file size could not be read and
    that failure was committed, and left in processing when the last
    commit raised. *)
Theorem immediate_submission
    (env : Env) (w : World)
    (user_id : Z) (filename file_path query : string) (priority : Z) :
  REDIS_CONNECTED env = false ->
  commit_fault env (commits w) = None ->
  let queue_id := next_queue_id (store w) in
  let k := commits w in
  let res := add_to_queue env user_id filename file_path query priority w in
  fst res = Returns ("processed_immediate_" ++ Py.str_int queue_id) /\
  match commit_fault env (S k) with
  | Some _ =>
      job_status queue_id (store (snd res)) = Some "pending" /\
      engine_runs (snd res) = engine_runs w
  | None =>
      engine_runs (snd res) = S (engine_runs w) /\
      job_status queue_id (store (snd res))
      = Some match file_size_of env file_path, commit_fault env (S (S k)) with
             | Returns _, None => "completed"
             | Raises _, None => "failed"
             | _, Some _ => "processing"
             end
  end.
Proof.
  intros Hc Hk queue_id k res. subst res.
  rewrite (add_to_queue_immediate env w _ _ _ _ _ Hk Hc).
  cbn [fst snd]. split; [reflexivity |].
  pose proof (submitted_queue_item env w user_id filename file_path query priority)
    as Hget.
  fold queue_id in Hget |- *.
  set (item := new_queue_item _ _ _ _ _ _ _) in *.
  set (w0 := Build_World _ _ _ _ _ _ _) in *.
  change (file_size_of env file_path)
    with (file_size_of env (AnalysisQueue.file_path item)).
  change (S k) with (commits w0). change (S (S k)) with (S (commits w0)).
  destruct (commit_fault env (commits w0)) as [e|] eqn:H1.
  - rewrite (process_document_claim_fault env w0 queue_id item Hget e H1).
    cbn [snd store engine_runs close set_session Nat.add].
    unfold job_status. rewrite Hget. split; reflexivity.
  - after_claim env w0 queue_id item Hget H1;
      cbn [close set_session store engine_runs];
      (split; [reflexivity |]); unfold job_status.
    + rewrite (get_claimed _ _ _ Hget). reflexivity.
    + rewrite (get_completed _ _ _ Hget). reflexivity.
    + rewrite (get_claimed _ _ _ Hget). reflexivity.
    + rewrite (get_failed _ _ _ Hget). reflexivity.
Qed.

(** C3 does not hold of the code: the commit that claims the job raises,
    [process_document] swallows the exception, and [add_to_queue] returns
    its handle while the job is pending and nothing was analysed.  Without
    any fault the handle is the same string whether the job ended
    completed or failed, and the database was committed with the job
    pending before the job was processed. *)
Lemma immediate_handle_for_pending_job :
  let env := Scenario.environment false true [1%nat] in
  let res := add_to_queue env 7 "report.pdf" "report.pdf" "q" 1 Scenario.initial in
  let good := add_to_queue Scenario.fallback 7 "report.pdf" "report.pdf" "q" 1
                Scenario.initial in
  let bad := add_to_queue Scenario.fallback 7 "vanishing.pdf" "vanishing.pdf"
               "q" 1 Scenario.initial in
  REDIS_CONNECTED env = false /\
  fst res = Returns "processed_immediate_1" /\
  job_status 1 (store (snd res)) = Some "pending" /\
  engine_runs (snd res) = 0%nat /\
  fst good = fst bad /\
  job_status 1 (store (snd good)) = Some "completed" /\
  job_status 1 (store (snd bad)) = Some "failed" /\
  map (job_status 1) (history (snd good))
  = [Some "completed"; Some "processing"; Some "pending"].
Proof.
  vm_compute. repeat split.
Qed.

(** An instance: a file that cannot be examined any more, no broker. *)
Lemma immediate_submission_witness :
  let res := add_to_queue Scenario.fallback 7 "vanishing.pdf" "vanishing.pdf"
               "q" 1 Scenario.initial in
  fst res = Returns "processed_immediate_1" /\
  engine_runs (snd res) = 1%nat /\
  job_status 1 (store (snd res)) = Some "failed".
Proof.
  intros res.
  destruct (immediate_submission Scenario.fallback Scenario.initial
              7 "vanishing.pdf" "vanishing.pdf" "q" 1 eq_refl eq_refl)
    as [H1 H2].
  exact (conj H1 H2).
Defined.








(* ===================================================================== *)
(** ** Queue statistics (C8, C9) *)
(* ===================================================================== *)





(** C9.  [user_id = 0] is falsy: the owner filter is not applied and the
    figures are those of the whole queue, as with no [user_id] at all. *)
Theorem get_queue_status_of_user_zero (env : Env) (w : World) :
  get_queue_status env (Some 0) w = get_queue_status env None w /\
  exists st,
    fst (get_queue_status env (Some 0) w) = Returns st /\
    total st = Z.of_nat (List.length (analysis_queue (store w))).
Proof.
  split; [reflexivity |]. eexists. split; reflexivity.
Qed.

(** The queue-wide figures are not those of owner 0: here owner 0 has no
    job and the answer for [user_id = 0] counts the three jobs of the
    owners 7 and 8. *)
Example user_zero_sees_the_whole_queue :
  filter (fun r => AnalysisQueue.user_id r =? 0)
    (analysis_queue (store Scenario.three_jobs)) = [] /\
  fst (get_queue_status Scenario.fallback (Some 0) Scenario.three_jobs)
  = Returns {| total := 3; pending := 1; processing := 0; completed := 1;
               failed := 1; redis_connected := false |}.
Proof.
  split; reflexivity.
Qed.

(* ===================================================================== *)
(** ** Status order along guarded runs (C2) *)
(* ===================================================================== *)

Lemma forward_refl (s : string) : forward s s = true.
Proof. unfold forward. rewrite String.eqb_refl. reflexivity. Qed.

Lemma forward_trans (s1 s2 s3 : string) :
  forward s1 s2 = true -> forward s2 s3 = true -> forward s1 s3 = true.
Proof.
  unfold forward. intros H12 H23.
  destruct (String.eqb_spec s1 s2) as [-> | _]; [exact H23 |].
  destruct (String.eqb_spec s2 s3) as [<- | _].
  - simpl in H12. rewrite H12. apply orb_true_r.
  - simpl in *.
    destruct (rank s1) as [a|], (rank s2) as [b|], (rank s3) as [c|];
      try discriminate.
    apply Nat.ltb_lt in H12, H23.
    assert (H : (a <? c)%nat = true) by (apply Nat.ltb_lt; lia).
    rewrite H. apply orb_true_r.
Qed.

Lemma is_open_cases (s : string) :
  is_open s = true -> s = "pending" \/ s = "processing".
Proof.
  unfold is_open. intros H. apply orb_true_iff in H.
  destruct H as [H | H]; apply String.eqb_eq in H; auto.
Qed.

Lemma open_not_terminal (s : string) :
  is_open s = true -> is_terminal s = false.
Proof.
  intros H. destruct (is_open_cases s H) as [-> | ->]; reflexivity.
Qed.

Lemma open_forward (s s' : string) :
  is_open s = true ->
  s' = "processing" \/ s' = "completed" \/ s' = "failed" ->
  forward s s' = true.
Proof.
  intros H H'.
  destruct (is_open_cases s H) as [-> | ->];
    destruct H' as [-> | [-> | ->]]; reflexivity.
Qed.

Lemma evolves_refl (d : Database) : evolves d d.
Proof.
  intros q r H. exists r. split; [exact H |].
  split; [apply forward_refl | reflexivity].
Qed.

Lemma evolves_trans (d1 d2 d3 : Database) :
  evolves d1 d2 -> evolves d2 d3 -> evolves d1 d3.
Proof.
  intros H12 H23 q r H.
  destruct (H12 q r H) as (r2 & G2 & F2 & T2).
  destruct (H23 q r2 G2) as (r3 & G3 & F3 & T3).
  exists r3. split; [exact G3 |]. split.
  - eapply forward_trans; eauto.
  - intros T. specialize (T2 T). subst r2. auto.
Qed.

Lemma evolves_insert (d : Database) (row : AnalysisQueue.t) :
  evolves d (insert_queue_item row d).
Proof.
  intros q r H. exists r. split; [now apply get_insert_old |].
  split; [apply forward_refl | reflexivity].
Qed.

(** Overwriting the record of an open job with a later status. *)
Lemma evolves_update (d : Database) (q : Z) (r row : AnalysisQueue.t) :
  get_queue_item q d = Some r ->
  AnalysisQueue.id row = AnalysisQueue.id r ->
  is_open (AnalysisQueue.status r) = true ->
  forward (AnalysisQueue.status r) (AnalysisQueue.status row) = true ->
  evolves d (update_queue_item row d).
Proof.
  intros Hget Hid Hopen Hfwd q' r' H'.
  destruct (Z.eq_dec q' q) as [-> | Hne].
  - rewrite Hget in H'. injection H' as <-.
    exists row. split; [now apply (get_after_update q d r) |].
    split; [exact Hfwd |].
    intros T. rewrite (open_not_terminal _ Hopen) in T. discriminate.
  - exists r'. rewrite get_update_other.
    + split; [exact H' |]. split; [apply forward_refl | reflexivity].
    + rewrite Hid, (get_queue_item_id _ _ _ Hget). congruence.
Qed.

Lemma process_outcome_evolves (env : Env) (w : World) (q : Z)
    (r : AnalysisQueue.t) (d : Database) :
  get_queue_item q (store w) = Some r ->
  is_open (AnalysisQueue.status r) = true ->
  process_outcome env w r d ->
  evolves (store w) d.
Proof.
  intros Hget Hopen Hout.
  set (claimed := AnalysisQueue.set_started_at (clock env (S (clock_reads w)))
                    (AnalysisQueue.set_status "processing" r)).
  assert (H1 : evolves (store w) (update_queue_item claimed (store w))).
  { apply (evolves_update _ q r); auto. apply open_forward; auto. }
  pose proof (get_claimed q (store w) r Hget (clock env (S (clock_reads w))))
    as Hc.
  destruct Hout as [ | | result | e He].
  - apply evolves_refl.
  - exact H1.
  - eapply evolves_trans; [exact H1 |].
    apply (evolves_update (insert_result _ _) q claimed); auto.
  - eapply evolves_trans; [exact H1 |].
    apply (evolves_update _ q claimed); auto.
Qed.

Lemma process_document_evolves (env : Env) (q : Z) (w : World) :
  (forall r, get_queue_item q (store w) = Some r ->
             is_open (AnalysisQueue.status r) = true) ->
  evolves (store w) (store (snd (process_document env q w))).
Proof.
  intros Hopen.
  destruct (process_document_returns env q w) as (_ & _ & Hout).
  destruct (get_queue_item q (store w)) as [r|] eqn:Hget.
  - apply (process_outcome_evolves env w q r); auto.
  - rewrite Hout. apply evolves_refl.
Qed.

Lemma add_to_queue_evolves (env : Env) (w : World)
    (user_id : Z) (filename file_path query : string) (priority : Z) :
  evolves (store w)
    (store (snd (add_to_queue env user_id filename file_path query priority w))).
Proof.
  destruct (commit_fault env (commits w)) as [e|] eqn:Hk.
  { rewrite (add_to_queue_commit_fault env w _ _ _ _ _ e Hk). apply evolves_refl. }
  destruct (REDIS_CONNECTED env) eqn:Hc.
  - destruct (enqueue_fault env (next_queue_id (store w))) as [e|] eqn:Hq.
    + rewrite (add_to_queue_enqueue_fault env w _ _ _ _ _ e Hk Hc Hq).
      apply evolves_insert.
    + rewrite (add_to_queue_queued env w _ _ _ _ _ Hk Hc Hq).
      apply evolves_insert.
  - rewrite (add_to_queue_immediate env w _ _ _ _ _ Hk Hc).
    cbn [snd close set_session store].
    eapply evolves_trans; [| apply process_document_evolves].
    + apply evolves_insert.
    + intros r Hr.
      rewrite (submitted_queue_item env w user_id filename file_path query priority)
        in Hr.
      injection Hr as <-. reflexivity.
Qed.

Lemma guarded_execute_is_open (q : Z) (d : Database) :
  guarded_operation (Execute q) d = true ->
  forall r, get_queue_item q d = Some r ->
            is_open (AnalysisQueue.status r) = true.
Proof.
  unfold guarded_operation, job_status. intros H r Hr.
  rewrite Hr in H. exact H.
Qed.

Lemma run_operation_evolves (env : Env) (op : operation) (w : World) :
  guarded_operation op (store w) = true ->
  evolves (store w) (store (run_operation env op w)).
Proof.
  destruct op as [u f p qr pr | q]; intros Hg; simpl.
  - apply add_to_queue_evolves.
  - apply process_document_evolves. now apply guarded_execute_is_open.
Qed.

Lemma run_app (env : Env) (before after : list operation) (w : World) :
  run env (before ++ after) w = run env after (run env before w).
Proof. unfold run. apply fold_left_app. Qed.

Lemma guarded_app (env : Env) (before after : list operation) (w : World) :
  guarded env (before ++ after) w
  = guarded env before w && guarded env after (run env before w).
Proof.
  revert w. induction before as [|op before IH]; intros w; simpl.
  - reflexivity.
  - rewrite IH, andb_assoc. reflexivity.
Qed.

Lemma guarded_run_evolves (env : Env) (ops : list operation) (w : World) :
  guarded env ops w = true ->
  evolves (store w) (store (run env ops w)).
Proof.
  revert w. induction ops as [|op ops IH]; intros w Hg.
  - apply evolves_refl.
  - simpl in Hg. apply andb_true_iff in Hg. destruct Hg as [Hop Hrest].
    unfold run; simpl. eapply evolves_trans.
    + apply (run_operation_evolves env op w Hop).
    + apply IH. exact Hrest.
Qed.

(** C2, as the code has it.  Along a run in which no execution is
    delivered for a job that is already completed or failed, between any
    two moments of the run every job stays in the database, its status
    does not move backward in pending -> processing -> {completed,
    failed}, and a record that is completed or failed is not changed. *)
Theorem guarded_run_never_moves_backward
    (env : Env) (before after : list operation) (w : World) :
  guarded env (before ++ after) w = true ->
  forall q r,
    get_queue_item q (store (run env before w)) = Some r ->
    exists r',
      get_queue_item q (store (run env (before ++ after) w)) = Some r' /\
      forward (AnalysisQueue.status r) (AnalysisQueue.status r') = true /\
      (is_terminal (AnalysisQueue.status r) = true -> r' = r).
Proof.
  intros Hg. rewrite guarded_app in Hg. apply andb_true_iff in Hg.
  destruct Hg as [_ Hg]. rewrite run_app.
  exact (guarded_run_evolves env after (run env before w) Hg).
Qed.

(** C2 does not hold of the code.  A completed job is delivered again:
    the committed states of the database show it back in processing, and
    its record, though terminal, has changed.  When the commit of the
    second result raises, the job that was completed is left in
    processing. *)
Lemma redelivery_moves_backward :
  let w1 := run Scenario.fallback [Scenario.submit_report] Scenario.initial in
  let w2 := run Scenario.fallback [Execute 1] w1 in
  let faulty := Scenario.environment false true [4%nat] in
  job_status 1 (store w1) = Some "completed" /\
  map (job_status 1) (history w2)
  = [Some "completed"; Some "processing";
     Some "completed"; Some "processing"; Some "pending"] /\
  get_queue_item 1 (store w2) <> get_queue_item 1 (store w1) /\
  job_status 1 (store (run faulty [Scenario.submit_report] Scenario.initial))
  = Some "completed" /\
  job_status 1 (store (run faulty [Scenario.submit_report; Execute 1]
                         Scenario.initial))
  = Some "processing" /\
  forward "completed" "processing" = false.
Proof.
  vm_compute. repeat split; discriminate.
Qed.

(** An instance: job 1 from its submission to the end of a guarded run. *)
Lemma guarded_run_never_moves_backward_witness :
  let env := Scenario.environment true true [] in
  exists r',
    get_queue_item 1
      (store (run env ([Scenario.submit_report]
                       ++ [Execute 1; Scenario.submit_missing; Execute 2])%list
                Scenario.initial))
    = Some r' /\
    forward "pending" (AnalysisQueue.status r') = true.
Proof.
  intros env.
  edestruct (guarded_run_never_moves_backward env
               [Scenario.submit_report]
               [Execute 1; Scenario.submit_missing; Execute 2]
               Scenario.initial eq_refl 1)
    as (r' & H1 & H2 & _); [reflexivity |].
  exists r'. exact (conj H1 H2).
Defined.

(* ===================================================================== *)
(** ** Timestamps and error messages along guarded runs (C6) *)
(* ===================================================================== *)

Lemma open_row_facts (r : AnalysisQueue.t) :
  is_open (AnalysisQueue.status r) = true ->
  row_invariant r = true ->
  is_set (AnalysisQueue.completed_at r) = false /\
  non_empty (AnalysisQueue.error_message r) = false.
Proof.
  intros Hopen. unfold row_invariant.
  destruct (is_open_cases _ Hopen) as [-> | ->]; simpl;
    destruct (is_set (AnalysisQueue.started_at r)),
             (is_set (AnalysisQueue.completed_at r)),
             (non_empty (AnalysisQueue.error_message r));
    simpl; intros H; try discriminate; auto.
Qed.

Lemma row_invariant_claimed (ts : timestamp) (r : AnalysisQueue.t) :
  is_open (AnalysisQueue.status r) = true ->
  row_invariant r = true ->
  row_invariant (AnalysisQueue.set_started_at ts
                   (AnalysisQueue.set_status "processing" r)) = true.
Proof.
  intros Hopen Hr. destruct (open_row_facts r Hopen Hr) as [Hc He].
  unfold row_invariant; simpl. rewrite Hc, He. reflexivity.
Qed.

Lemma row_invariant_completed (ts ts' : timestamp) (r : AnalysisQueue.t) :
  is_open (AnalysisQueue.status r) = true ->
  row_invariant r = true ->
  ts <= ts' ->
  row_invariant
    (AnalysisQueue.set_completed_at ts'
       (AnalysisQueue.set_status "completed"
          (AnalysisQueue.set_started_at ts
             (AnalysisQueue.set_status "processing" r)))) = true.
Proof.
  intros Hopen Hr Hle. destruct (open_row_facts r Hopen Hr) as [Hc He].
  unfold row_invariant; simpl. rewrite He.
  apply Z.leb_le in Hle. rewrite Hle. reflexivity.
Qed.

Lemma row_invariant_failed (ts ts' : timestamp) (m : string) (r : AnalysisQueue.t) :
  ts <= ts' ->
  m <> "" ->
  row_invariant
    (AnalysisQueue.set_completed_at ts'
       (AnalysisQueue.set_error_message m
          (AnalysisQueue.set_status "failed"
             (AnalysisQueue.set_started_at ts
                (AnalysisQueue.set_status "processing" r))))) = true.
Proof.
  intros Hle Hm. unfold row_invariant; simpl.
  apply Z.leb_le in Hle. rewrite Hle.
  destruct m; [congruence | reflexivity].
Qed.

Lemma store_invariant_update (row : AnalysisQueue.t) (d : Database) :
  store_invariant d = true ->
  row_invariant row = true ->
  store_invariant (update_queue_item row d) = true.
Proof.
  unfold store_invariant, update_queue_item; simpl. intros Hd Hrow.
  induction (analysis_queue d) as [|x l IH]; simpl in *; [reflexivity |].
  apply andb_true_iff in Hd. destruct Hd as [Hx Hl].
  rewrite (IH Hl), andb_true_r.
  destruct (AnalysisQueue.id x =? AnalysisQueue.id row); assumption.
Qed.

Lemma store_invariant_insert (row : AnalysisQueue.t) (d : Database) :
  store_invariant d = true ->
  row_invariant row = true ->
  store_invariant (insert_queue_item row d) = true.
Proof.
  unfold store_invariant, insert_queue_item; simpl. intros Hd Hrow.
  rewrite forallb_app, Hd. simpl. rewrite Hrow. reflexivity.
Qed.

Lemma store_invariant_row (q : Z) (d : Database) (r : AnalysisQueue.t) :
  store_invariant d = true ->
  get_queue_item q d = Some r ->
  row_invariant r = true.
Proof.
  unfold store_invariant. intros Hd Hget.
  rewrite forallb_forall in Hd. apply Hd.
  eapply get_queue_item_in; eauto.
Qed.

Lemma bool_eqb_iff (a b : bool) :
  Bool.eqb a b = true <-> (a = true <-> b = true).
Proof. destruct a, b; simpl; intuition congruence. Qed.

Lemma is_set_iff {A} (o : option A) : is_set o = true <-> o <> None.
Proof. destruct o; simpl; intuition congruence. Qed.

Lemma non_empty_iff (o : option string) :
  non_empty o = true <-> exists m, o = Some m /\ m <> "".
Proof.
  destruct o as [[|a m]|]; simpl; split.
  - discriminate.
  - intros (m & H & Hm). injection H as <-. congruence.
  - intros _. eexists. split; [reflexivity | discriminate].
  - reflexivity.
  - discriminate.
  - intros (m & H & _). discriminate.
Qed.

Lemma is_terminal_iff (s : string) :
  is_terminal s = true <-> s = "completed" \/ s = "failed".
Proof.
  unfold is_terminal. rewrite orb_true_iff, !String.eqb_eq. reflexivity.
Qed.

(** [row_invariant], read as the four conditions of the data model. *)
Lemma row_invariant_spec (r : AnalysisQueue.t) :
  row_invariant r = true <->
  ((AnalysisQueue.started_at r <> None <->
    AnalysisQueue.status r = "processing" \/
    AnalysisQueue.status r = "completed" \/
    AnalysisQueue.status r = "failed") /\
   (AnalysisQueue.completed_at r <> None <->
    AnalysisQueue.status r = "completed" \/
    AnalysisQueue.status r = "failed") /\
   (AnalysisQueue.status r = "completed" \/
    AnalysisQueue.status r = "failed" ->
    exists started finished,
      AnalysisQueue.started_at r = Some started /\
      AnalysisQueue.completed_at r = Some finished /\
      started <= finished) /\
   ((exists m, AnalysisQueue.error_message r = Some m /\ m <> "") <->
    AnalysisQueue.status r = "failed")).
Proof.
  unfold row_invariant.
  rewrite !andb_true_iff, !bool_eqb_iff, !is_set_iff, non_empty_iff,
    orb_true_iff, !is_terminal_iff, !String.eqb_eq.
  assert (Horder :
    (if is_terminal (AnalysisQueue.status r)
     then match AnalysisQueue.started_at r, AnalysisQueue.completed_at r with
          | Some started, Some finished => started <=? finished
          | _, _ => false
          end
     else true) = true <->
    (AnalysisQueue.status r = "completed" \/
     AnalysisQueue.status r = "failed" ->
     exists started finished,
       AnalysisQueue.started_at r = Some started /\
       AnalysisQueue.completed_at r = Some finished /\
       started <= finished)).
  { rewrite <- is_terminal_iff.
    destruct (is_terminal (AnalysisQueue.status r)).
    - destruct (AnalysisQueue.started_at r) as [a|],
               (AnalysisQueue.completed_at r) as [b|]; split.
      + intros H _. exists a, b. apply Z.leb_le in H. auto.
      + intros H. destruct (H eq_refl) as (a' & b' & Ha & Hb & Hle).
        injection Ha as <-. injection Hb as <-. now apply Z.leb_le.
      + discriminate.
      + intros H. destruct (H eq_refl) as (? & ? & _ & Hb & _). discriminate.
      + discriminate.
      + intros H. destruct (H eq_refl) as (? & ? & Ha & _). discriminate.
      + discriminate.
      + intros H. destruct (H eq_refl) as (? & ? & Ha & _). discriminate.
    - split; [discriminate | reflexivity]. }
  rewrite Horder. tauto.
Qed.

Section Invariant.

Variable env : Env.
Hypothesis Hclock : clock_monotone env.
Hypothesis Herrors : errors_have_messages env.

Lemma file_size_error_message (path : string) (e : exn) :
  file_size_of env path = Raises e -> str e <> "".
Proof.
  unfold file_size_of. destruct (fs env path) as [file|] eqn:Hfs.
  - intros H. exact (Herrors path file e Hfs H).
  - discriminate.
Qed.

Lemma process_outcome_keeps_invariant (w : World) (r : AnalysisQueue.t)
    (d : Database) :
  is_open (AnalysisQueue.status r) = true ->
  row_invariant r = true ->
  store_invariant (store w) = true ->
  process_outcome env w r d ->
  store_invariant d = true.
Proof.
  intros Hopen Hr Hinv Hout.
  assert (H1 : store_invariant
                 (update_queue_item
                    (AnalysisQueue.set_started_at (clock env (S (clock_reads w)))
                       (AnalysisQueue.set_status "processing" r)) (store w))
               = true).
  { apply store_invariant_update; [exact Hinv |].
    now apply row_invariant_claimed. }
  destruct Hout as [ | | result | e He].
  - exact Hinv.
  - exact H1.
  - apply store_invariant_update; [exact H1 |].
    apply row_invariant_completed; [exact Hopen | exact Hr |].
    apply Hclock. lia.
  - apply store_invariant_update; [exact H1 |].
    apply row_invariant_failed.
    + apply Hclock. lia.
    + eapply file_size_error_message; eauto.
Qed.

Lemma process_document_keeps_invariant (q : Z) (w : World) :
  (forall r, get_queue_item q (store w) = Some r ->
             is_open (AnalysisQueue.status r) = true) ->
  store_invariant (store w) = true ->
  store_invariant (store (snd (process_document env q w))) = true.
Proof.
  intros Hopen Hinv.
  destruct (process_document_returns env q w) as (_ & _ & Hout).
  destruct (get_queue_item q (store w)) as [r|] eqn:Hget.
  - apply (process_outcome_keeps_invariant w r); auto.
    eapply store_invariant_row; eauto.
  - rewrite Hout. exact Hinv.
Qed.

Lemma add_to_queue_keeps_invariant (w : World)
    (user_id : Z) (filename file_path query : string) (priority : Z) :
  store_invariant (store w) = true ->
  store_invariant
    (store (snd (add_to_queue env user_id filename file_path query priority w)))
  = true.
Proof.
  intros Hinv.
  assert (H0 : forall id ts,
    store_invariant
      (insert_queue_item
         (new_queue_item user_id filename file_path query priority id ts)
         (store w)) = true).
  { intros id ts. apply store_invariant_insert; [exact Hinv | reflexivity]. }
  destruct (commit_fault env (commits w)) as [e|] eqn:Hk.
  { rewrite (add_to_queue_commit_fault env w _ _ _ _ _ e Hk). exact Hinv. }
  destruct (REDIS_CONNECTED env) eqn:Hc.
  - destruct (enqueue_fault env (next_queue_id (store w))) as [e|] eqn:Hq.
    + rewrite (add_to_queue_enqueue_fault env w _ _ _ _ _ e Hk Hc Hq). apply H0.
    + rewrite (add_to_queue_queued env w _ _ _ _ _ Hk Hc Hq). apply H0.
  - rewrite (add_to_queue_immediate env w _ _ _ _ _ Hk Hc).
    cbn [snd close set_session store].
    apply process_document_keeps_invariant; [| apply H0].
    intros r Hr.
    rewrite (submitted_queue_item env w user_id filename file_path query priority)
      in Hr.
    injection Hr as <-. reflexivity.
Qed.

Lemma run_operation_keeps_invariant (op : operation) (w : World) :
  guarded_operation op (store w) = true ->
  store_invariant (store w) = true ->
  store_invariant (store (run_operation env op w)) = true.
Proof.
  destruct op as [u f p qr pr | q]; intros Hg Hinv; simpl.
  - now apply add_to_queue_keeps_invariant.
  - apply process_document_keeps_invariant; [| exact Hinv].
    now apply guarded_execute_is_open.
Qed.

End Invariant.

Lemma guarded_run_invariant (env : Env) (ops : list operation) (w : World) :
  clock_monotone env ->
  errors_have_messages env ->
  store_invariant (store w) = true ->
  guarded env ops w = true ->
  store_invariant (store (run env ops w)) = true.
Proof.
  intros Hclock Herrors. revert w.
  induction ops as [|op ops IH]; intros w Hinv Hg; [exact Hinv |].
  simpl in Hg. apply andb_true_iff in Hg. destruct Hg as [Hop Hrest].
  unfold run; simpl. apply IH; [| exact Hrest].
  now apply run_operation_keeps_invariant.
Qed.

(** C6, as the code has it.  With a clock that does not go back and
    file system errors that carry a message, the invariant of the
    timestamps and of the error message holds of every record after every
    operation of a run in which no execution is delivered for a job that
    is already completed or failed: [started_at] is set exactly in
    processing, completed and failed, [completed_at] exactly in completed
    and failed, where [started_at <= completed_at], and [error_message]
    is non-empty exactly in failed. *)
Theorem guarded_run_keeps_invariant
    (env : Env) (before after : list operation) (w : World) :
  clock_monotone env ->
  errors_have_messages env ->
  store_invariant (store w) = true ->
  guarded env (before ++ after) w = true ->
  forall r,
    In r (analysis_queue (store (run env before w))) ->
    (AnalysisQueue.started_at r <> None <->
     AnalysisQueue.status r = "processing" \/
     AnalysisQueue.status r = "completed" \/
     AnalysisQueue.status r = "failed") /\
    (AnalysisQueue.completed_at r <> None <->
     AnalysisQueue.status r = "completed" \/
     AnalysisQueue.status r = "failed") /\
    (AnalysisQueue.status r = "completed" \/
     AnalysisQueue.status r = "failed" ->
     exists started finished,
       AnalysisQueue.started_at r = Some started /\
       AnalysisQueue.completed_at r = Some finished /\
       started <= finished) /\
    ((exists m, AnalysisQueue.error_message r = Some m /\ m <> "") <->
     AnalysisQueue.status r = "failed").
Proof.
  intros Hclock Herrors Hinv Hg r Hr.
  rewrite guarded_app in Hg. apply andb_true_iff in Hg.
  destruct Hg as [Hg _].
  pose proof (guarded_run_invariant env before w Hclock Herrors Hinv Hg) as H.
  unfold store_invariant in H. rewrite forallb_forall in H.
  apply row_invariant_spec. now apply H.
Qed.

(** C6 does not hold of the code.  A completed job is delivered again and
    the commit of its second result raises: the record is left in
    processing with [completed_at] set.  Without any fault, the second
    delivery commits such a record before it completes. *)
Lemma redelivery_breaks_invariant :
  let faulty := Scenario.environment false true [4%nat] in
  let w1 := run faulty [Scenario.submit_report] Scenario.initial in
  let w2 := run faulty [Execute 1] w1 in
  let w3 := run Scenario.fallback [Scenario.submit_report; Execute 1]
              Scenario.initial in
  job_status 1 (store w1) = Some "completed" /\
  store_invariant (store w1) = true /\
  job_status 1 (store w2) = Some "processing" /\
  option_map AnalysisQueue.completed_at (get_queue_item 1 (store w2))
  = Some (Some 105) /\
  store_invariant (store w2) = false /\
  map store_invariant (history w3) = [true; false; true; true; true].
Proof.
  vm_compute. repeat split.
Qed.

(** An instance: a guarded run that ends with a completed and a failed
    job. *)
Lemma guarded_run_keeps_invariant_witness :
  let ops := [Scenario.submit_report; Scenario.submit_vanishing; Execute 7] in
  job_status 2 (store (run Scenario.fallback ops Scenario.initial))
  = Some "failed" /\
  forall r,
    In r (analysis_queue (store (run Scenario.fallback ops Scenario.initial))) ->
    (exists m, AnalysisQueue.error_message r = Some m /\ m <> "") <->
    AnalysisQueue.status r = "failed".
Proof.
  intros ops. split; [reflexivity |]. intros r Hr.
  apply (guarded_run_keeps_invariant Scenario.fallback ops [] Scenario.initial);
    [ | | reflexivity | reflexivity | exact Hr].
  - intros i j Hij. change (100 + Z.of_nat i <= 100 + Z.of_nat j). lia.
  - intros path file e. unfold Scenario.fallback, Scenario.environment, fs,
      Scenario.files.
    repeat (destruct (String.eqb path _)); intros H; inversion H; subst;
      simpl; intros He; inversion He; discriminate.
Defined.


(* ===================================================================== *)
(** ** The cleaning loop of [_run] *)
(* ===================================================================== *)

Lemma squeeze_cons (a : ascii) (t : string) :
  squeeze (String a t)
  = match t with
    | "" => String a ""
    | String b _ =>
        if Ascii.eqb a Py.nl_char && Ascii.eqb b Py.nl_char
        then squeeze t else String a (squeeze t)
    end.
Proof. destruct t; reflexivity. Qed.

(** A pass of [replace] keeps the first character. *)
Lemma replace_nlnl_head (s : string) :
  match s, Py.replace_nlnl s with
  | "", "" => True
  | String a _, String b _ => a = b
  | _, _ => False
  end.
Proof.
  destruct s as [|a [|b r]]; simpl; auto.
  destruct (Ascii.eqb a Py.nl_char && Ascii.eqb b Py.nl_char) eqn:E; auto.
  apply andb_true_iff in E. destruct E as [E _].
  apply Ascii.eqb_eq in E. now subst.
Qed.

Lemma squeeze_cons_replace (a : ascii) (s : string) :
  squeeze (Py.replace_nlnl s) = squeeze s ->
  squeeze (String a (Py.replace_nlnl s)) = squeeze (String a s).
Proof.
  intros H. rewrite !squeeze_cons.
  pose proof (replace_nlnl_head s) as Hh.
  destruct s as [|b r]; [reflexivity |].
  remember (Py.replace_nlnl (String b r)) as t eqn:E.
  destruct t as [|b' r']; [contradiction |].
  subst b'. rewrite H. reflexivity.
Qed.

(** One pass of [replace] does not change what [squeeze] gives. *)
Lemma squeeze_replace_nlnl (n : nat) :
  forall s, (String.length s <= n)%nat ->
    squeeze (Py.replace_nlnl s) = squeeze s.
Proof.
  induction n as [|n IH]; intros s Hn.
  - destruct s; [reflexivity | simpl in Hn; lia].
  - destruct s as [|a [|b r]]; try reflexivity.
    change (Py.replace_nlnl (String a (String b r)))
      with (if Ascii.eqb a Py.nl_char && Ascii.eqb b Py.nl_char
            then String Py.nl_char (Py.replace_nlnl r)
            else String a (Py.replace_nlnl (String b r))).
    destruct (Ascii.eqb a Py.nl_char && Ascii.eqb b Py.nl_char) eqn:E.
    + apply andb_true_iff in E. destruct E as [Ea Eb].
      apply Ascii.eqb_eq in Ea, Eb. subst a b.
      transitivity (squeeze (String Py.nl_char r)); [| reflexivity].
      apply squeeze_cons_replace. apply IH. simpl in Hn; lia.
    + apply (squeeze_cons_replace a (String b r)).
      apply IH. simpl in Hn |- *; lia.
Qed.

Lemma squeeze_fixed (s : string) :
  Py.has_nlnl s = false -> squeeze s = s.
Proof.
  induction s as [|a s IH]; [reflexivity |].
  rewrite squeeze_cons. destruct s as [|b r]; [reflexivity |].
  intros H.
  assert (H' : (Ascii.eqb a Py.nl_char && Ascii.eqb b Py.nl_char)
               || Py.has_nlnl (String b r) = false) by exact H.
  apply orb_false_iff in H'. destruct H' as [H1 H2].
  rewrite H1, (IH H2). reflexivity.
Qed.

(** X1.  The cleaning loop collapses every run of consecutive line feeds
    into one line feed and changes nothing else: it computes [squeeze]. *)
Theorem clean_collapses_line_feeds (content : string) :
  FinancialDocumentTool.clean content = squeeze content.
Proof.
  funelim (FinancialDocumentTool.clean content).
  - rewrite H0. apply (squeeze_replace_nlnl (String.length content)). lia.
  - symmetry. now apply squeeze_fixed.
Qed.

Lemma without_nl_replace_nlnl (n : nat) :
  forall s, (String.length s <= n)%nat ->
    without_nl (Py.replace_nlnl s) = without_nl s.
Proof.
  induction n as [|n IH]; intros s Hn.
  - destruct s; [reflexivity | simpl in Hn; lia].
  - destruct s as [|a [|b r]]; try reflexivity.
    change (Py.replace_nlnl (String a (String b r)))
      with (if Ascii.eqb a Py.nl_char && Ascii.eqb b Py.nl_char
            then String Py.nl_char (Py.replace_nlnl r)
            else String a (Py.replace_nlnl (String b r))).
    destruct (Ascii.eqb a Py.nl_char && Ascii.eqb b Py.nl_char) eqn:E.
    + apply andb_true_iff in E. destruct E as [Ea Eb].
      apply Ascii.eqb_eq in Ea, Eb. subst a b.
      change (without_nl (Py.replace_nlnl r) = without_nl r).
      apply IH. simpl in Hn; lia.
    + change (without_nl (String a (Py.replace_nlnl (String b r))))
        with (if Ascii.eqb a Py.nl_char
              then without_nl (Py.replace_nlnl (String b r))
              else String a (without_nl (Py.replace_nlnl (String b r)))).
      change (without_nl (String a (String b r)))
        with (if Ascii.eqb a Py.nl_char
              then without_nl (String b r)
              else String a (without_nl (String b r))).
      rewrite (IH (String b r)) by (simpl in Hn |- *; lia).
      reflexivity.
Qed.

Lemma clean_fixed (content : string) :
  Py.has_nlnl content = false -> FinancialDocumentTool.clean content = content.
Proof.
  intros H. funelim (FinancialDocumentTool.clean content); congruence.
Qed.

Lemma clean_length (content : string) :
  (String.length (FinancialDocumentTool.clean content)
   <= String.length content)%nat.
Proof.
  funelim (FinancialDocumentTool.clean content); [| lia].
  pose proof (replace_nlnl_shrinks content H). lia.
Qed.

(** X2.  The cleaning loop deletes line feeds and nothing else: the other
    characters come out unchanged and in order, the result never holds two
    line feeds in a row and is never longer than the input, a text is left
    as it is exactly when it has no blank line, and cleaning twice is
    cleaning once. *)
Theorem clean_removes_only_line_feeds (content : string) :
  without_nl (FinancialDocumentTool.clean content) = without_nl content /\
  Py.has_nlnl (FinancialDocumentTool.clean content) = false /\
  (String.length (FinancialDocumentTool.clean content)
   <= String.length content)%nat /\
  (FinancialDocumentTool.clean content = content
   <-> Py.has_nlnl content = false) /\
  FinancialDocumentTool.clean (FinancialDocumentTool.clean content)
  = FinancialDocumentTool.clean content.
Proof.
  split; [| split; [| split; [| split]]].
  - funelim (FinancialDocumentTool.clean content); [| reflexivity].
    rewrite H0. apply (without_nl_replace_nlnl (String.length content)). lia.
  - apply clean_has_no_blank_line.
  - apply clean_length.
  - split.
    + intros H. rewrite <- H. apply clean_has_no_blank_line.
    + apply clean_fixed.
  - apply clean_fixed, clean_has_no_blank_line.
Qed.

(* ===================================================================== *)
(** ** What [_run] returns for text that was read *)
(* ===================================================================== *)

Lemma append_length (s t : string) :
  String.length (s ++ t) = (String.length s + String.length t)%nat.
Proof. induction s as [|c s IH]; simpl; [reflexivity | now rewrite IH]. Qed.

Lemma run_body_read (fs : FileSystem) (path : string) (file : File)
    (pages : list (outcome string)) (full_report : string) :
  fs path = Some file ->
  PdfReader file = Returns pages ->
  FinancialDocumentTool.read_pages pages "" = Returns full_report ->
  FinancialDocumentTool._run fs path
  = Returns (if Py.len full_report >? 10000
             then Py.slice_to 10000 full_report
                  ++ FinancialDocumentTool.truncation_marker
             else if Py.truthy (Py.strip full_report)
                  then full_report
                  else "No readable content found in PDF").
Proof.
  intros Hfs Hp Hr.
  unfold FinancialDocumentTool._run, FinancialDocumentTool.run_body.
  rewrite Hfs, Hp. cbn [Outcome.bind]. rewrite Hr. cbn [Outcome.bind].
  destruct (Py.len full_report >? 10000);
    [| destruct (Py.truthy (Py.strip full_report))]; reflexivity.
Qed.

(** X3.  When the file exists and its text is read without an exception,
    the string [_run] returns has at most 10040 characters, and exactly
    10040 when more than 10000 characters were read (10000 of the text
    and the 40 of the truncation marker). *)
Theorem run_output_is_bounded (fs : FileSystem) (path : string)
    (file : File) (pages : list (outcome string)) (full_report : string) :
  fs path = Some file ->
  PdfReader file = Returns pages ->
  FinancialDocumentTool.read_pages pages "" = Returns full_report ->
  exists s,
    FinancialDocumentTool._run fs path = Returns s /\
    Py.len s <= 10040 /\
    (10000 < Py.len full_report -> Py.len s = 10040).
Proof.
  intros Hfs Hp Hr. rewrite (run_body_read _ _ _ _ _ Hfs Hp Hr).
  eexists. split; [reflexivity |].
  destruct (Py.len full_report >? 10000) eqn:E.
  - apply Z.gtb_lt in E.
    assert (Hl : Py.len (Py.slice_to 10000 full_report
                         ++ FinancialDocumentTool.truncation_marker) = 10040).
    { unfold Py.len in *. rewrite append_length.
      unfold Py.slice_to. rewrite take_length by lia.
      reflexivity. }
    rewrite Hl. split; [lia | reflexivity].
  - assert (Hle : Py.len full_report <= 10000).
    { destruct (Z.gtb_spec (Py.len full_report) 10000); [discriminate | lia]. }
    split; [| lia].
    destruct (Py.truthy (Py.strip full_report)); [lia |].
    vm_compute. discriminate.
Qed.

Lemma all_space_rev_onto (s : string) : forall acc,
  all_space (Py.rev_onto s acc) = all_space s && all_space acc.
Proof.
  induction s as [|c s IH]; intros acc; simpl; [reflexivity |].
  rewrite IH. simpl.
  destruct (Py.isspace c), (all_space s), (all_space acc); reflexivity.
Qed.

Lemma lstrip_empty (s : string) :
  Py.truthy (Py.lstrip s) = negb (all_space s).
Proof.
  induction s as [|c s IH]; [reflexivity |].
  simpl. destruct (Py.isspace c); [exact IH | reflexivity].
Qed.

Lemma all_space_lstrip (s : string) :
  all_space s = false -> all_space (Py.lstrip s) = false.
Proof.
  induction s as [|c s IH]; [discriminate |].
  simpl. destruct (Py.isspace c) eqn:E; [exact IH |].
  intros _. simpl. now rewrite E.
Qed.

Lemma truthy_rev_onto (s acc : string) :
  Py.truthy (Py.rev_onto s acc) = Py.truthy s || Py.truthy acc.
Proof.
  revert acc. induction s as [|c s IH]; intros acc; [reflexivity |].
  simpl. rewrite IH. simpl. now rewrite orb_true_r.
Qed.

(** [s.strip()] is empty exactly when [s] is white space only. *)
Lemma strip_empty (s : string) :
  Py.truthy (Py.strip s) = negb (all_space s).
Proof.
  unfold Py.strip, Py.rstrip, Py.reverse.
  rewrite truthy_rev_onto, orb_false_r, lstrip_empty, all_space_rev_onto.
  rewrite andb_true_r.
  destruct (all_space s) eqn:E.
  - pose proof (lstrip_empty s) as H. rewrite E in H.
    destruct (Py.lstrip s); [reflexivity | discriminate].
  - now rewrite all_space_lstrip.
Qed.

(** X4.  When the file exists and at most 10000 characters are read from
    it without an exception, [_run] returns that text if it holds a
    character that is not white space, and the sentence "No readable
    content found in PDF" if it does not (no page, or pages of white space
    only). *)
Theorem run_on_blank_text (fs : FileSystem) (path : string)
    (file : File) (pages : list (outcome string)) (full_report : string) :
  fs path = Some file ->
  PdfReader file = Returns pages ->
  FinancialDocumentTool.read_pages pages "" = Returns full_report ->
  Py.len full_report <= 10000 ->
  FinancialDocumentTool._run fs path
  = Returns (if all_space full_report
             then "No readable content found in PDF"
             else full_report).
Proof.
  intros Hfs Hp Hr Hl. rewrite (run_body_read _ _ _ _ _ Hfs Hp Hr).
  destruct (Z.gtb_spec (Py.len full_report) 10000) as [H | _]; [lia |].
  rewrite strip_empty. destruct (all_space full_report); reflexivity.
Qed.

Lemma run_output_is_bounded_witness :
  exists s,
    FinancialDocumentTool._run Scenario.files "long.pdf" = Returns s /\
    Py.len s <= 10040 /\
    (10000 < Py.len (Scenario.long_text ++ Py.nl) -> Py.len s = 10040).
Proof.
  eapply (run_output_is_bounded Scenario.files "long.pdf" _
           [Returns Scenario.long_text] (Scenario.long_text ++ Py.nl)).
  - reflexivity.
  - reflexivity.
  - vm_compute. reflexivity.
Defined.

Lemma run_on_blank_text_witness :
  FinancialDocumentTool._run Scans.files "scan.pdf"
  = Returns "No readable content found in PDF".
Proof.
  eapply (run_on_blank_text Scans.files "scan.pdf" _
           [Returns Scans.blank_page; Returns ""]
           (Scans.blank_page ++ Py.nl ++ Py.nl)).
  - reflexivity.
  - reflexivity.
  - vm_compute. reflexivity.
  - vm_compute. discriminate.
Defined.

(* ===================================================================== *)
(** ** The summary tools look at the text in lower case *)
(* ===================================================================== *)

Lemma lower_char_idempotent (c : ascii) :
  Py.lower_char (Py.lower_char c) = Py.lower_char c.
Proof.
  destruct c as [[] [] [] [] [] [] [] []]; vm_compute; reflexivity.
Qed.

Lemma lower_idempotent (s : string) : Py.lower (Py.lower s) = Py.lower s.
Proof.
  induction s as [|c s IH]; [reflexivity |].
  simpl. now rewrite lower_char_idempotent, IH.
Qed.

Lemma lower_char_space (c : ascii) :
  Ascii.eqb (Py.lower_char c) " " = Ascii.eqb c " ".
Proof.
  destruct c as [[] [] [] [] [] [] [] []]; vm_compute; reflexivity.
Qed.

Lemma lower_replace_double_space (n : nat) :
  forall s, (String.length s <= n)%nat ->
    replace_double_space (Py.lower s) = Py.lower (replace_double_space s).
Proof.
  induction n as [|n IH]; intros s Hn.
  - destruct s; [reflexivity | simpl in Hn; lia].
  - destruct s as [|a [|b r]]; try reflexivity.
    change (replace_double_space (Py.lower (String a (String b r))))
      with (if Ascii.eqb (Py.lower_char a) " " && Ascii.eqb (Py.lower_char b) " "
            then String " " (replace_double_space (Py.lower r))
            else String (Py.lower_char a)
                   (replace_double_space (Py.lower (String b r)))).
    change (replace_double_space (String a (String b r)))
      with (if Ascii.eqb a " " && Ascii.eqb b " "
            then String " " (replace_double_space r)
            else String a (replace_double_space (String b r))).
    rewrite !lower_char_space.
    destruct (Ascii.eqb a " " && Ascii.eqb b " ").
    + rewrite IH by (simpl in Hn; lia). reflexivity.
    + rewrite (IH (String b r)) by (simpl in Hn |- *; lia). reflexivity.
Qed.

(** X5.  The two summary tools ignore the case of the letters: the
    summary of a text is the summary of its lower-case form, so an
    indicator word is found however it is capitalised. *)
Theorem summary_tools_ignore_case (financial_data : string) :
  InvestmentAnalysisTool._run (Py.lower financial_data)
  = InvestmentAnalysisTool._run financial_data /\
  RiskAssessmentTool._run (Py.lower financial_data)
  = RiskAssessmentTool._run financial_data.
Proof.
  split.
  - unfold InvestmentAnalysisTool._run, InvestmentAnalysisTool.run_body,
      InvestmentAnalysisTool.analysis_points.
    rewrite (lower_replace_double_space (String.length financial_data))
      by lia.
    rewrite lower_idempotent. reflexivity.
  - unfold RiskAssessmentTool._run, RiskAssessmentTool.run_body,
      RiskAssessmentTool.risk_factors.
    rewrite lower_idempotent. reflexivity.
Qed.

(* ===================================================================== *)
(** ** Keys, submissions and results along a run *)
(* ===================================================================== *)

Lemma same_submission_refl (r : AnalysisQueue.t) : same_submission r r.
Proof. unfold same_submission. repeat split. Qed.

Lemma same_submission_trans (r1 r2 r3 : AnalysisQueue.t) :
  same_submission r1 r2 -> same_submission r2 r3 -> same_submission r1 r3.
Proof. unfold same_submission. intuition congruence. Qed.

Lemma NoDup_snoc {A} (l : list A) (x : A) :
  NoDup l -> ~ In x l -> NoDup (l ++ [x])%list.
Proof.
  induction l as [|a l IH]; simpl; intros Hl Hx.
  - constructor; [intros [] | constructor].
  - inversion Hl as [|? ? Ha Hl']; subst. constructor.
    + rewrite in_app_iff. simpl. intuition.
    + apply IH; intuition.
Qed.

Lemma queue_ids_update (row : AnalysisQueue.t) (d : Database) :
  queue_ids (update_queue_item row d) = queue_ids d.
Proof.
  unfold queue_ids, update_queue_item; simpl. rewrite map_map.
  apply map_ext. intros a.
  destruct (AnalysisQueue.id a =? AnalysisQueue.id row) eqn:E; [| reflexivity].
  apply Z.eqb_eq in E. now symmetry.
Qed.

Lemma db_grows_refl (d : Database) : db_grows [] d d.
Proof.
  unfold db_grows. split; [exists []; now rewrite app_nil_r |].
  split; [auto |]. split.
  - intros q r H. exists r. split; [exact H | apply same_submission_refl].
  - split; [now rewrite app_nil_r | auto].
Qed.

Lemma db_grows_trans (m1 m2 : list AnalysisResult.t) (d1 d2 d3 : Database) :
  db_grows m1 d1 d2 -> db_grows m2 d2 d3 -> db_grows (m1 ++ m2)%list d1 d3.
Proof.
  intros ([n1 H1] & N1 & J1 & R1 & U1) ([n2 H2] & N2 & J2 & R2 & U2).
  unfold db_grows. split; [| split; [| split; [| split]]].
  - exists (n1 ++ n2)%list. rewrite H2, H1. now rewrite app_assoc.
  - auto.
  - intros q r H. destruct (J1 q r H) as (r' & H' & S1).
    destruct (J2 q r' H') as (r'' & H'' & S2).
    exists r''. split; [exact H'' |].
    eapply same_submission_trans; eauto.
  - rewrite R2, R1. now rewrite app_assoc.
  - auto.
Qed.

(** [UPDATE] of the record found under [q] by a row of the same
    submission. *)
Lemma db_grows_update (q : Z) (r row : AnalysisQueue.t) (d : Database) :
  get_queue_item q d = Some r -> same_submission r row ->
  db_grows [] d (update_queue_item row d).
Proof.
  intros Hget Hsame.
  assert (Hid : AnalysisQueue.id row = q).
  { destruct Hsame as [-> _]. eapply get_queue_item_id; eauto. }
  unfold db_grows. rewrite queue_ids_update.
  split; [exists []; now rewrite app_nil_r |].
  split; [auto |]. split.
  - intros q0 r0 H0. destruct (Z.eq_dec q0 q) as [-> | Hne].
    + exists row. split.
      * eapply get_update_same; eauto.
      * rewrite Hget in H0. injection H0 as <-. exact Hsame.
    + exists r0. split; [| apply same_submission_refl].
      rewrite get_update_other; [exact H0 | congruence].
  - split; [| auto].
    unfold update_queue_item; simpl. now rewrite app_nil_r.
Qed.

Lemma db_grows_insert_result (res : AnalysisResult.t) (d : Database) :
  AnalysisResult.id res = next_result_id d ->
  db_grows [res] d (insert_result res d).
Proof.
  intros Hid. unfold db_grows.
  split; [exists []; now rewrite app_nil_r |].
  split; [auto |]. split.
  - intros q r H. exists r. split; [exact H | apply same_submission_refl].
  - split; [reflexivity |].
    intros Hn. unfold result_ids, insert_result; simpl.
    rewrite map_app. simpl. apply NoDup_snoc; [exact Hn |].
    rewrite Hid. apply next_id_fresh.
Qed.

Lemma db_grows_insert_queue_item (row : AnalysisQueue.t) (d : Database) :
  AnalysisQueue.id row = next_queue_id d ->
  db_grows [] d (insert_queue_item row d).
Proof.
  intros Hid. unfold db_grows.
  assert (Hids : queue_ids (insert_queue_item row d)
                 = (queue_ids d ++ [AnalysisQueue.id row])%list).
  { unfold queue_ids, insert_queue_item; simpl. now rewrite map_app. }
  split; [exists [AnalysisQueue.id row]; exact Hids |].
  split.
  - intros Hn. rewrite Hids. apply NoDup_snoc; [exact Hn |].
    rewrite Hid. apply next_id_fresh.
  - split.
    + intros q r H. exists r. split; [| apply same_submission_refl].
      now apply get_insert_old.
    + split; [| auto]. unfold insert_queue_item; simpl. now rewrite app_nil_r.
Qed.

Lemma grows_refl (w : World) : grows w w.
Proof.
  exists []. split; [apply db_grows_refl |]. split; [constructor | simpl; lia].
Qed.

Lemma grows_trans (w1 w2 w3 : World) :
  grows w1 w2 -> grows w2 w3 -> grows w1 w3.
Proof.
  intros (m1 & D1 & F1 & E1) (m2 & D2 & F2 & E2).
  exists (m1 ++ m2)%list. split; [eapply db_grows_trans; eauto |].
  split; [apply Forall_app; auto |]. rewrite length_app. lia.
Qed.

Section ProcessDocumentGrows.

Variable env : Env.
Variable w : World.
Variable q : Z.
Variable r : AnalysisQueue.t.
Hypothesis Hget : get_queue_item q (store w) = Some r.
Variables (started finished : timestamp).

Let claimed : AnalysisQueue.t :=
  AnalysisQueue.set_started_at started
    (AnalysisQueue.set_status "processing" r).

Lemma db_grows_claimed :
  db_grows [] (store w) (update_queue_item claimed (store w)).
Proof.
  apply (db_grows_update q r); [exact Hget |]. unfold same_submission.
  repeat split.
Qed.

Lemma db_grows_completed (res : AnalysisResult.t) :
  AnalysisResult.id res
  = next_result_id (update_queue_item claimed (store w)) ->
  db_grows [res] (store w)
    (update_queue_item
       (AnalysisQueue.set_completed_at finished
          (AnalysisQueue.set_status "completed" claimed))
       (insert_result res (update_queue_item claimed (store w)))).
Proof.
  intros Hid.
  change [res] with (([] ++ [res]) ++ [])%list.
  eapply db_grows_trans; [eapply db_grows_trans |].
  - apply db_grows_claimed.
  - apply db_grows_insert_result. exact Hid.
  - apply (db_grows_update q claimed).
    + rewrite get_insert_result. apply (get_claimed q (store w) r Hget).
    + unfold same_submission. repeat split.
Qed.

Lemma db_grows_failed (message : string) :
  db_grows [] (store w)
    (update_queue_item
       (AnalysisQueue.set_completed_at finished
          (AnalysisQueue.set_error_message message
             (AnalysisQueue.set_status "failed" claimed)))
       (update_queue_item claimed (store w))).
Proof.
  change (@nil AnalysisResult.t) with ([] ++ @nil AnalysisResult.t)%list.
  eapply db_grows_trans.
  - apply db_grows_claimed.
  - apply (db_grows_update q claimed).
    + apply (get_claimed q (store w) r Hget).
    + unfold same_submission. repeat split.
Qed.

End ProcessDocumentGrows.

Lemma process_document_grows (env : Env) (q : Z) (w : World) :
  grows w (snd (process_document env q w)).
Proof.
  destruct (get_queue_item q (store w)) as [r|] eqn:Hget.
  - destruct (commit_fault env (commits w)) as [e|] eqn:Hk.
    { rewrite (process_document_claim_fault env w q r Hget e Hk).
      exists []. cbn [snd store engine_runs].
      split; [apply db_grows_refl |]. split; [constructor | simpl; lia]. }
    destruct (file_size_of env (AnalysisQueue.file_path r)) as [size|e] eqn:Hs;
      destruct (commit_fault env (S (commits w))) as [e'|] eqn:Hk1.
    + rewrite (process_document_result_fault env w q r Hget size e' Hk Hs Hk1).
      exists []. cbn [snd store engine_runs].
      split; [apply (db_grows_claimed w q r Hget) |].
      split; [constructor | simpl; lia].
    + rewrite (process_document_completes env w q r Hget size Hk Hs Hk1).
      eexists [_]. cbn [snd store engine_runs].
      split; [apply (db_grows_completed w q r Hget); reflexivity |].
      split; [repeat constructor | simpl; lia].
    + rewrite (process_document_failure_fault env w q r Hget e e' Hk Hs Hk1).
      exists []. cbn [snd store engine_runs].
      split; [apply (db_grows_claimed w q r Hget) |].
      split; [constructor | simpl; lia].
    + rewrite (process_document_fails env w q r Hget e Hk Hs Hk1).
      exists []. cbn [snd store engine_runs].
      split; [apply (db_grows_failed w q r Hget) |].
      split; [constructor | simpl; lia].
  - rewrite (process_document_unknown env w q Hget).
    exists []. cbn [snd store engine_runs].
    split; [apply db_grows_refl |]. split; [constructor | simpl; lia].
Qed.

Lemma grows_submitted (w w' : World) (row : AnalysisQueue.t) :
  AnalysisQueue.id row = next_queue_id (store w) ->
  store w' = insert_queue_item row (store w) ->
  engine_runs w' = engine_runs w ->
  grows w w'.
Proof.
  intros Hid Hs He. exists []. rewrite Hs, He.
  split; [now apply db_grows_insert_queue_item |].
  split; [constructor | simpl; lia].
Qed.

Lemma add_to_queue_grows (env : Env) (w : World)
    (user_id : Z) (filename file_path query : string) (priority : Z) :
  grows w (snd (add_to_queue env user_id filename file_path query priority w)).
Proof.
  destruct (commit_fault env (commits w)) as [e|] eqn:Hk.
  { rewrite (add_to_queue_commit_fault env w _ _ _ _ _ e Hk).
    exists []. cbn [snd store engine_runs].
    split; [apply db_grows_refl |]. split; [constructor | simpl; lia]. }
  pose (item := new_queue_item user_id filename file_path query priority
                  (next_queue_id (store w)) (clock env (clock_reads w))).
  destruct (REDIS_CONNECTED env) eqn:Hc.
  - destruct (enqueue_fault env (next_queue_id (store w))) as [e|] eqn:Hq.
    + rewrite (add_to_queue_enqueue_fault env w _ _ _ _ _ e Hk Hc Hq).
      apply (grows_submitted _ _ item); reflexivity.
    + rewrite (add_to_queue_queued env w _ _ _ _ _ Hk Hc Hq).
      apply (grows_submitted _ _ item); reflexivity.
  - rewrite (add_to_queue_immediate env w _ _ _ _ _ Hk Hc).
    match goal with
    | |- grows _ (snd (_, close (snd (process_document _ _ ?w0)))) =>
        apply (grows_trans w w0);
          [apply (grows_submitted _ _ item); reflexivity |];
          destruct (process_document_grows env (next_queue_id (store w)) w0)
            as (more & D & F & E)
    end.
    exists more. cbn [snd close set_session store engine_runs] in *.
    auto.
Qed.

Lemma run_operation_grows (env : Env) (op : operation) (w : World) :
  grows w (run_operation env op w).
Proof.
  destruct op; simpl.
  - apply add_to_queue_grows.
  - apply process_document_grows.
Qed.

Lemma run_grows (env : Env) (ops : list operation) :
  forall w, grows w (run env ops w).
Proof.
  induction ops as [|op ops IH]; intros w.
  - apply grows_refl.
  - simpl. eapply grows_trans; [apply run_operation_grows | apply IH].
Qed.

(** X6.  Keys are never reused and no record is ever deleted: along any
    sequence of submissions and executions, whatever the faults, the list
    of job ids only gets longer at its end, and when the ids of the jobs
    and of the results were all distinct before the run, they are all
    distinct after it. *)
Theorem keys_are_never_reused (env : Env) (ops : list operation) (w : World) :
  NoDup (queue_ids (store w)) ->
  NoDup (result_ids (store w)) ->
  NoDup (queue_ids (store (run env ops w))) /\
  NoDup (result_ids (store (run env ops w))) /\
  exists new,
    queue_ids (store (run env ops w)) = (queue_ids (store w) ++ new)%list.
Proof.
  intros Hq Hr.
  destruct (run_grows env ops w) as (more & (Hnew & Nq & _ & _ & Nr) & _).
  auto.
Qed.

(** X7.  What a submission wrote is never rewritten: along any sequence
    of submissions and executions, whatever the faults, a job that is in
    the database stays there with the same id, owner, file name, file
    path, query, priority and creation time. *)
Theorem submission_is_never_rewritten (env : Env) (ops : list operation)
    (w : World) (q : Z) (r : AnalysisQueue.t) :
  get_queue_item q (store w) = Some r ->
  exists r',
    get_queue_item q (store (run env ops w)) = Some r' /\
    same_submission r r'.
Proof.
  intros Hget.
  destruct (run_grows env ops w) as (more & (_ & _ & J & _) & _).
  exact (J q r Hget).
Qed.

(** X8.  The results table is append-only: along any sequence of
    submissions and executions, whatever the faults, the rows that were
    stored stay as they are and in place, every row added has status
    "completed", and no more rows are added than [perform_analysis] was
    called. *)
Theorem results_are_append_only (env : Env) (ops : list operation) (w : World) :
  exists more,
    analysis_results (store (run env ops w))
    = (analysis_results (store w) ++ more)%list /\
    Forall (fun res => AnalysisResult.status res = "completed") more /\
    (List.length more + engine_runs w <= engine_runs (run env ops w))%nat.
Proof.
  destruct (run_grows env ops w) as (more & (_ & _ & _ & R & _) & F & E).
  exists more. auto.
Qed.

Lemma keys_are_never_reused_witness :
  NoDup (queue_ids (store (run Scenario.fallback
           [Scenario.submit_report; Execute 2] Scenario.three_jobs))) /\
  NoDup (result_ids (store (run Scenario.fallback
           [Scenario.submit_report; Execute 2] Scenario.three_jobs))) /\
  exists new,
    queue_ids (store (run Scenario.fallback
      [Scenario.submit_report; Execute 2] Scenario.three_jobs))
    = (queue_ids (store Scenario.three_jobs) ++ new)%list.
Proof.
  apply (keys_are_never_reused Scenario.fallback
           [Scenario.submit_report; Execute 2] Scenario.three_jobs).
  - simpl. repeat constructor; simpl; intuition lia.
  - simpl. constructor.
Defined.

Lemma submission_is_never_rewritten_witness :
  exists r',
    get_queue_item 2
      (store (run Scenario.fallback [Execute 2; Scenario.submit_report]
                Scenario.three_jobs)) = Some r' /\
    same_submission (Scenario.job 2 7 "pending" None None None) r'.
Proof.
  apply (submission_is_never_rewritten Scenario.fallback
           [Execute 2; Scenario.submit_report] Scenario.three_jobs 2).
  reflexivity.
Defined.

(* ===================================================================== *)
(** ** [process_document] and its caller *)
(* ===================================================================== *)

(** X9.  [process_document] never raises, whatever the storage faults and
    file errors, and it leaves its session closed; it answers "Queue item
    not found" exactly when no job has the id. *)
Theorem process_document_never_raises (env : Env) (queue_id : Z) (w : World) :
  exists result,
    fst (process_document env queue_id w) = Returns result /\
    session_failure (snd (process_document env queue_id w)) = None /\
    (result = Queue_item_not_found
     <-> get_queue_item queue_id (store w) = None).
Proof.
  destruct (get_queue_item queue_id (store w)) as [r|] eqn:Hget.
  - destruct (commit_fault env (commits w)) as [e|] eqn:Hk.
    { rewrite (process_document_claim_fault env w queue_id r Hget e Hk).
      eexists. split; [reflexivity |]. split; [reflexivity |].
      split; discriminate. }
    destruct (file_size_of env (AnalysisQueue.file_path r)) as [size|e] eqn:Hs;
      destruct (commit_fault env (S (commits w))) as [e'|] eqn:Hk1.
    + rewrite (process_document_result_fault env w queue_id r Hget size e' Hk Hs Hk1).
      eexists. split; [reflexivity |]. split; [reflexivity |].
      split; discriminate.
    + rewrite (process_document_completes env w queue_id r Hget size Hk Hs Hk1).
      eexists. split; [reflexivity |]. split; [reflexivity |].
      split; discriminate.
    + rewrite (process_document_failure_fault env w queue_id r Hget e e' Hk Hs Hk1).
      eexists. split; [reflexivity |]. split; [reflexivity |].
      split; discriminate.
    + rewrite (process_document_fails env w queue_id r Hget e Hk Hs Hk1).
      eexists. split; [reflexivity |]. split; [reflexivity |].
      split; discriminate.
  - rewrite (process_document_unknown env w queue_id Hget).
    eexists. split; [reflexivity |]. split; [reflexivity |].
    split; reflexivity.
Qed.

(** X10.  With the broker connected and [queue.enqueue] succeeding, a
    submission whose commit succeeds stores the job as pending, hands its
    id to the broker once, analyses nothing and returns
    "queued_redis_analysis_<id>". *)
Theorem queued_submission (env : Env) (w : World)
    (user_id : Z) (filename file_path query : string) (priority : Z) :
  commit_fault env (commits w) = None ->
  REDIS_CONNECTED env = true ->
  enqueue_fault env (next_queue_id (store w)) = None ->
  let queue_id := next_queue_id (store w) in
  let w' := snd (add_to_queue env user_id filename file_path query priority w) in
  fst (add_to_queue env user_id filename file_path query priority w)
  = Returns ("queued_redis_analysis_" ++ Py.str_int queue_id) /\
  store w'
  = insert_queue_item
      (new_queue_item user_id filename file_path query priority queue_id
         (clock env (clock_reads w))) (store w) /\
  job_status queue_id (store w') = Some "pending" /\
  enqueued w' = (enqueued w ++ [queue_id])%list /\
  engine_runs w' = engine_runs w /\
  session_failure w' = None.
Proof.
  intros Hk Hc Hq queue_id w'. unfold w'.
  rewrite (add_to_queue_queued env w _ _ _ _ _ Hk Hc Hq).
  cbn [fst snd push_enqueued store enqueued engine_runs session_failure].
  split; [reflexivity |]. split; [reflexivity |].
  split; [| repeat split].
  unfold job_status, queue_id. rewrite get_insert_new; reflexivity.
Qed.

Lemma queued_submission_witness :
  fst (add_to_queue (Scenario.environment true true []) 7 "report.pdf"
         "report.pdf" "What is the revenue?" 1 Scenario.initial)
  = Returns "queued_redis_analysis_1" /\
  job_status 1
    (store (snd (add_to_queue (Scenario.environment true true []) 7
                   "report.pdf" "report.pdf" "What is the revenue?" 1
                   Scenario.initial)))
  = Some "pending".
Proof.
  destruct (queued_submission (Scenario.environment true true []) Scenario.initial
              7 "report.pdf" "report.pdf" "What is the revenue?" 1
              eq_refl eq_refl eq_refl) as (H1 & _ & H3 & _).
  split; [exact H1 | exact H3].
Defined.

Lemma without_broker_not_connected (env : Env) :
  REDIS_CONNECTED (without_broker env) = false.
Proof.
  unfold REDIS_CONNECTED, without_broker; simpl.
  destruct (REDIS_AVAILABLE env); reflexivity.
Qed.

Lemma process_document_without_broker (env : Env) (q : Z) (w : World) :
  process_document (without_broker env) q w = process_document env q w.
Proof. reflexivity. Qed.

(** [process_document] neither reads nor writes the list of enqueued
    jobs. *)
Lemma process_document_enqueued (env : Env) (q x : Z) (w : World) :
  process_document env q (push_enqueued x w)
  = (fst (process_document env q w),
     push_enqueued x (snd (process_document env q w))).
Proof.
  destruct (get_queue_item q (store w)) as [r|] eqn:Hget.
  - destruct (commit_fault env (commits w)) as [e|] eqn:Hk.
    { rewrite (process_document_claim_fault env w q r Hget e Hk).
      rewrite (process_document_claim_fault env (push_enqueued x w) q r Hget e Hk).
      reflexivity. }
    destruct (file_size_of env (AnalysisQueue.file_path r)) as [size|e] eqn:Hs;
      destruct (commit_fault env (S (commits w))) as [e'|] eqn:Hk1.
    + rewrite (process_document_result_fault env w q r Hget size e' Hk Hs Hk1).
      rewrite (process_document_result_fault env (push_enqueued x w) q r Hget
                 size e' Hk Hs Hk1).
      reflexivity.
    + rewrite (process_document_completes env w q r Hget size Hk Hs Hk1).
      rewrite (process_document_completes env (push_enqueued x w) q r Hget
                 size Hk Hs Hk1).
      reflexivity.
    + rewrite (process_document_failure_fault env w q r Hget e e' Hk Hs Hk1).
      rewrite (process_document_failure_fault env (push_enqueued x w) q r Hget
                 e e' Hk Hs Hk1).
      reflexivity.
    + rewrite (process_document_fails env w q r Hget e Hk Hs Hk1).
      rewrite (process_document_fails env (push_enqueued x w) q r Hget
                 e Hk Hs Hk1).
      reflexivity.
  - rewrite (process_document_unknown env w q Hget).
    rewrite (process_document_unknown env (push_enqueued x w) q Hget).
    reflexivity.
Qed.

(** Closing the session again changes nothing. *)
Lemma close_process_document (env : Env) (q : Z) (w : World) :
  close (snd (process_document env q w)) = snd (process_document env q w).
Proof.
  destruct (get_queue_item q (store w)) as [r|] eqn:Hget.
  - destruct (commit_fault env (commits w)) as [e|] eqn:Hk.
    { rewrite (process_document_claim_fault env w q r Hget e Hk).
      reflexivity. }
    destruct (file_size_of env (AnalysisQueue.file_path r)) as [size|e] eqn:Hs;
      destruct (commit_fault env (S (commits w))) as [e'|] eqn:Hk1.
    + rewrite (process_document_result_fault env w q r Hget size e' Hk Hs Hk1).
      reflexivity.
    + rewrite (process_document_completes env w q r Hget size Hk Hs Hk1).
      reflexivity.
    + rewrite (process_document_failure_fault env w q r Hget e e' Hk Hs Hk1).
      reflexivity.
    + rewrite (process_document_fails env w q r Hget e Hk Hs Hk1).
      reflexivity.
  - rewrite (process_document_unknown env w q Hget). reflexivity.
Qed.

(** X11.  The fallback is transparent: a submission that is queued and
    then executed by a worker before anything else happens leaves the
    same world (database, committed states, clock, analyses run) as the
    same submission processed immediately without a broker; the only
    difference is the id recorded as handed to the broker. *)
Theorem fallback_is_transparent (env : Env) (w : World)
    (user_id : Z) (filename file_path query : string) (priority : Z) :
  commit_fault env (commits w) = None ->
  REDIS_CONNECTED env = true ->
  enqueue_fault env (next_queue_id (store w)) = None ->
  run env [Submit user_id filename file_path query priority;
           Execute (next_queue_id (store w))] w
  = push_enqueued (next_queue_id (store w))
      (run (without_broker env)
         [Submit user_id filename file_path query priority] w).
Proof.
  intros Hk Hc Hq. unfold run. cbn [fold_left run_operation].
  rewrite (add_to_queue_queued env w _ _ _ _ _ Hk Hc Hq).
  cbn [snd]. rewrite process_document_enqueued. cbn [snd].
  rewrite (add_to_queue_immediate (without_broker env) w _ _ _ _ _ Hk
             (without_broker_not_connected env)).
  cbn [snd]. rewrite close_process_document.
  rewrite process_document_without_broker. reflexivity.
Qed.

Lemma fallback_is_transparent_witness :
  run (Scenario.environment true true [])
    [Scenario.submit_report; Execute 1] Scenario.initial
  = push_enqueued 1
      (run (without_broker (Scenario.environment true true []))
         [Scenario.submit_report] Scenario.initial).
Proof.
  exact (fallback_is_transparent (Scenario.environment true true [])
           Scenario.initial 7 "report.pdf" "report.pdf"
           "What is the revenue?" 1 eq_refl eq_refl eq_refl).
Defined.

(* ===================================================================== *)
(** ** The read endpoints *)
(* ===================================================================== *)

Lemma find_snoc_fresh {A} (f : A -> bool) (l : list A) (y : A) :
  (forall x, In x l -> f x = false) -> f y = true ->
  find f (l ++ [y])%list = Some y.
Proof.
  intros Hl Hy. induction l as [|x l IH]; simpl.
  - now rewrite Hy.
  - rewrite (Hl x) by now left. apply IH. intros z Hz. apply Hl. now right.
Qed.

Lemma get_result_new (res : AnalysisResult.t) (d : Database) :
  AnalysisResult.id res = next_result_id d ->
  get_result (next_result_id d) (insert_result res d) = Some res.
Proof.
  intros Hid. unfold get_result, insert_result; simpl.
  apply find_snoc_fresh.
  - intros x Hx. apply Z.eqb_neq. intros E.
    apply (next_id_fresh (map AnalysisResult.id (analysis_results d))).
    fold (next_result_id d). rewrite <- E. now apply in_map.
  - rewrite Hid. apply Z.eqb_refl.
Qed.

Lemma get_result_update (q : Z) (row : AnalysisQueue.t) (d : Database) :
  get_result q (update_queue_item row d) = get_result q d.
Proof. reflexivity. Qed.

(** X12.  A success of [process_document] is stored: the result id it
    returns is the key of a row that [get_analysis_result] finds, holding
    the analysis and the processing time that were returned, the file
    name and the query of the job, and status "completed"; the job itself
    is then completed. *)
Theorem success_is_stored (env : Env) (queue_id : Z) (w : World)
    (result_id processing_time : Z) (analysis : string) :
  fst (process_document env queue_id w)
  = Returns (Success result_id processing_time analysis) ->
  exists r created,
    get_queue_item queue_id (store w) = Some r /\
    get_analysis_result result_id
      (store (snd (process_document env queue_id w)))
    = Ok {| ResultResponse.id := result_id;
            ResultResponse.filename := AnalysisQueue.filename r;
            ResultResponse.query := AnalysisQueue.query r;
            ResultResponse.analysis := analysis;
            ResultResponse.processing_time := processing_time;
            ResultResponse.status := "completed";
            ResultResponse.created_at := created |} /\
    job_status queue_id (store (snd (process_document env queue_id w)))
    = Some "completed".
Proof.
  intros H.
  destruct (get_queue_item queue_id (store w)) as [r|] eqn:Hget.
  - destruct (commit_fault env (commits w)) as [e|] eqn:Hk.
    { rewrite (process_document_claim_fault env w queue_id r Hget e Hk) in H.
      discriminate. }
    destruct (file_size_of env (AnalysisQueue.file_path r)) as [size|e] eqn:Hs;
      destruct (commit_fault env (S (commits w))) as [e'|] eqn:Hk1.
    + rewrite (process_document_result_fault env w queue_id r Hget size e' Hk Hs Hk1)
        in H. discriminate.
    + rewrite (process_document_completes env w queue_id r Hget size Hk Hs Hk1)
        in H |- *.
      cbn [fst snd store] in H |- *. injection H as <- <- <-.
      exists r. eexists. split; [reflexivity |]. split.
      * unfold get_analysis_result.
        rewrite get_result_update, get_result_new by reflexivity.
        reflexivity.
      * unfold job_status. rewrite (get_completed queue_id (store w) r Hget).
        reflexivity.
    + rewrite (process_document_failure_fault env w queue_id r Hget e e' Hk Hs Hk1)
        in H. discriminate.
    + rewrite (process_document_fails env w queue_id r Hget e Hk Hs Hk1) in H.
      discriminate.
  - rewrite (process_document_unknown env w queue_id Hget) in H. discriminate.
Qed.

Lemma success_is_stored_witness :
  exists r created,
    get_queue_item 2 (store Scenario.three_jobs) = Some r /\
    get_analysis_result 1
      (store (snd (process_document Scenario.fallback 2 Scenario.three_jobs)))
    = Ok {| ResultResponse.id := 1;
            ResultResponse.filename := AnalysisQueue.filename r;
            ResultResponse.query := AnalysisQueue.query r;
            ResultResponse.analysis :=
              analysis_text "122" (run_text Scenario.files "report.pdf")
                "What is the revenue?";
            ResultResponse.processing_time := 3;
            ResultResponse.status := "completed";
            ResultResponse.created_at := created |} /\
    job_status 2
      (store (snd (process_document Scenario.fallback 2 Scenario.three_jobs)))
    = Some "completed".
Proof.
  apply (success_is_stored Scenario.fallback 2 Scenario.three_jobs 1 3
           (analysis_text "122" (run_text Scenario.files "report.pdf")
              "What is the revenue?")).
  vm_compute. reflexivity.
Defined.

Lemma split_nonempty (sep : ascii) (s : string) : split sep s <> [].
Proof.
  destruct s as [|c r]; simpl; [discriminate |].
  destruct (Ascii.eqb c sep); [discriminate |].
  destruct (split sep r); discriminate.
Qed.

Lemma append_cons (c : ascii) (s t : string) :
  String c s ++ t = String c (s ++ t).
Proof. reflexivity. Qed.

Lemma append_empty (t : string) : "" ++ t = t.
Proof. reflexivity. Qed.

(** Splitting at an occurrence of the separator. *)
Lemma split_append (sep : ascii) (p d : string) :
  split sep (p ++ String sep d) = (split sep p ++ split sep d)%list.
Proof.
  induction p as [|c p IH].
  - rewrite append_empty. simpl. now rewrite Ascii.eqb_refl.
  - rewrite append_cons. simpl. rewrite IH.
    destruct (Ascii.eqb c sep); [reflexivity |].
    pose proof (split_nonempty sep p) as Hp.
    destruct (split sep p); [congruence | reflexivity].
Qed.

Lemma split_without (sep : ascii) (d : string) :
  has_char sep d = false -> split sep d = [d].
Proof.
  induction d as [|c d IH]; simpl; [reflexivity |].
  intros H. apply orb_false_iff in H. destruct H as [H1 H2].
  rewrite H1, (IH H2). reflexivity.
Qed.

(** [(p + sep + d).split(sep)[-1]] is [d] when [sep] is not in [d]. *)
Lemma last_split (sep : ascii) (p d : string) :
  has_char sep d = false ->
  last (split sep (p ++ String sep d)) "" = d.
Proof.
  intros H. rewrite split_append, (split_without sep d H).
  apply last_last.
Qed.

Lemma uint_has_no_underscore (d : Decimal.uint) :
  has_char "_" (NilEmpty.string_of_uint d) = false.
Proof. induction d; simpl; auto. Qed.

Lemma str_int_has_no_underscore (n : Z) : has_char "_" (Py.str_int n) = false.
Proof.
  unfold Py.str_int, NilZero.string_of_int, NilZero.string_of_uint.
  destruct (Z.to_int n) as [d | d]; destruct d;
    try reflexivity; simpl; apply uint_has_no_underscore.
Qed.

(** The numeral [str(n)] denotes [n]. *)
Lemma decimal_str_int (n : Z) : decimal (Py.str_int n) = Some n.
Proof.
  unfold decimal, Py.str_int.
  pose proof (DecimalZ.of_to n) as Hn.
  rewrite NilZero.isi.
  - simpl. now rewrite Hn.
  - intros E. rewrite E in Hn. simpl in Hn. subst n. discriminate E.
  - intros E. rewrite E in Hn. simpl in Hn. subst n. discriminate E.
Qed.

Lemma prefix_append (p x : string) : prefix p (p ++ x) = true.
Proof.
  induction p as [|c p IH].
  - rewrite append_empty. destruct x; reflexivity.
  - rewrite append_cons. simpl. destruct (ascii_dec c c); congruence.
Qed.

Section Handles.

Variable int_of_str : string -> option Z.
Variable newest_first : list AnalysisResult.t -> option AnalysisResult.t.

(** [int(str(n)) == n] *)
Hypothesis int_of_str_int : forall n : Z, int_of_str (Py.str_int n) = Some n.

Lemma actual_id_queued (n : Z) :
  actual_id int_of_str ("queued_redis_" ++ "analysis_" ++ Py.str_int n)
  = Some n.
Proof.
  unfold actual_id.
  rewrite prefix_append.
  change ("queued_redis_" ++ "analysis_" ++ Py.str_int n)
    with ("queued_redis_analysis" ++ String "_" (Py.str_int n)).
  rewrite last_split by apply str_int_has_no_underscore.
  apply int_of_str_int.
Qed.

Lemma actual_id_immediate (n : Z) :
  actual_id int_of_str ("processed_immediate_" ++ Py.str_int n) = Some n.
Proof.
  unfold actual_id.
  replace (prefix "queued_redis_" ("processed_immediate_" ++ Py.str_int n))
    with false by reflexivity.
  rewrite prefix_append.
  change ("processed_immediate_" ++ Py.str_int n)
    with ("processed_immediate" ++ String "_" (Py.str_int n)).
  rewrite last_split by apply str_int_has_no_underscore.
  apply int_of_str_int.
Qed.

(** The handle [add_to_queue] returns names the job it stored. *)
Lemma returned_handle (env : Env) (w : World)
    (user_id : Z) (filename file_path query : string) (priority : Z)
    (handle : string) :
  fst (add_to_queue env user_id filename file_path query priority w)
  = Returns handle ->
  actual_id int_of_str handle = Some (next_queue_id (store w)) /\
  exists r,
    get_queue_item (next_queue_id (store w))
      (store (snd (add_to_queue env user_id filename file_path query
                     priority w))) = Some r /\
    same_submission
      (new_queue_item user_id filename file_path query priority
         (next_queue_id (store w)) (clock env (clock_reads w))) r.
Proof.
  intros H.
  pose (item := new_queue_item user_id filename file_path query priority
                  (next_queue_id (store w)) (clock env (clock_reads w))).
  destruct (commit_fault env (commits w)) as [e|] eqn:Hk.
  { rewrite (add_to_queue_commit_fault env w _ _ _ _ _ e Hk) in H.
    discriminate. }
  destruct (REDIS_CONNECTED env) eqn:Hc.
  - destruct (enqueue_fault env (next_queue_id (store w))) as [e|] eqn:Hq.
    + rewrite (add_to_queue_enqueue_fault env w _ _ _ _ _ e Hk Hc Hq) in H.
      discriminate.
    + rewrite (add_to_queue_queued env w _ _ _ _ _ Hk Hc Hq) in H |- *.
      cbn [fst snd push_enqueued store] in H |- *. injection H as <-.
      split; [apply actual_id_queued |].
      exists item. split; [| apply same_submission_refl].
      apply get_insert_new. reflexivity.
  - rewrite (add_to_queue_immediate env w _ _ _ _ _ Hk Hc) in H |- *.
    cbn [fst snd close set_session store] in H |- *. injection H as <-.
    split; [apply actual_id_immediate |].
    match goal with
    | |- context [process_document env _ ?w0] =>
        destruct (process_document_grows env (next_queue_id (store w)) w0)
          as (more & (_ & _ & J & _) & _)
    end.
    apply J. apply submitted_queue_item.
Qed.

(** X13.  The handle [add_to_queue] returns, in either of its two forms,
    is one the status endpoint understands: given back to
    [get_analysis_status] right away or after any further submissions
    and executions, it is never answered with 400 or 404 but with the
    status of the job that was submitted, under that job's id and
    creation time. *)
Theorem handle_resolves_to_its_job (env : Env) (w : World)
    (user_id : Z) (filename file_path query : string) (priority : Z)
    (handle : string) (ops : list operation) :
  fst (add_to_queue env user_id filename file_path query priority w)
  = Returns handle ->
  let later :=
    store (run env ops
             (snd (add_to_queue env user_id filename file_path query
                     priority w))) in
  exists r response,
    get_queue_item (next_queue_id (store w)) later = Some r /\
    same_submission
      (new_queue_item user_id filename file_path query priority
         (next_queue_id (store w)) (clock env (clock_reads w))) r /\
    get_analysis_status int_of_str newest_first handle later = Ok response /\
    StatusResponse.queue_id response = next_queue_id (store w) /\
    StatusResponse.status response = AnalysisQueue.status r /\
    StatusResponse.created_at response = clock env (clock_reads w) /\
    StatusResponse.started_at response = AnalysisQueue.started_at r /\
    StatusResponse.completed_at response = AnalysisQueue.completed_at r.
Proof.
  intros H later.
  destruct (returned_handle env w _ _ _ _ _ handle H) as (Hid & r0 & G0 & S0).
  destruct (run_grows env ops
              (snd (add_to_queue env user_id filename file_path query
                      priority w))) as (more & (_ & _ & J & _) & _).
  destruct (J _ _ G0) as (r & G & S).
  fold later in G.
  pose proof (same_submission_trans _ _ _ S0 S) as Hs.
  exists r. eexists. split; [exact G |]. split; [exact Hs |].
  unfold get_analysis_status. rewrite Hid, G.
  split; [reflexivity |]. cbn.
  repeat split. destruct Hs as (_ & _ & _ & _ & _ & _ & Hc). exact Hc.
Qed.

(** X14.  The result a completed job reports is looked up by owner and
    file name, not by job: two completed jobs of the same owner and file
    name are answered with the same result id and processing time,
    whichever job the row belongs to. *)
Theorem status_result_is_per_file (d : Database) (handle handle' : string)
    (q q' : Z) (r r' : AnalysisQueue.t) :
  actual_id int_of_str handle = Some q ->
  actual_id int_of_str handle' = Some q' ->
  get_queue_item q d = Some r ->
  get_queue_item q' d = Some r' ->
  AnalysisQueue.status r = "completed" ->
  AnalysisQueue.status r' = "completed" ->
  AnalysisQueue.user_id r = AnalysisQueue.user_id r' ->
  AnalysisQueue.filename r = AnalysisQueue.filename r' ->
  exists response response',
    get_analysis_status int_of_str newest_first handle d = Ok response /\
    get_analysis_status int_of_str newest_first handle' d = Ok response' /\
    StatusResponse.result_id response = StatusResponse.result_id response' /\
    StatusResponse.processing_time response
    = StatusResponse.processing_time response'.
Proof.
  intros Hh Hh' G G' C C' U F.
  unfold get_analysis_status. rewrite Hh, Hh', G, G'.
  eexists. eexists. split; [reflexivity |]. split; [reflexivity |].
  cbn. rewrite C, C'. cbn. unfold results_of. rewrite U, F.
  split; reflexivity.
Qed.

End Handles.

Lemma handle_resolves_to_its_job_witness :
  let later :=
    store (run Scenario.fallback [Execute 1]
             (snd (add_to_queue Scenario.fallback 7 "report.pdf" "report.pdf"
                     "What is the revenue?" 1 Scenario.initial))) in
  exists r response,
    get_queue_item 1 later = Some r /\
    same_submission
      (new_queue_item 7 "report.pdf" "report.pdf" "What is the revenue?" 1
         1 100) r /\
    get_analysis_status decimal newest_stored_first "processed_immediate_1"
      later = Ok response /\
    StatusResponse.queue_id response = 1 /\
    StatusResponse.status response = AnalysisQueue.status r /\
    StatusResponse.created_at response = 100 /\
    StatusResponse.started_at response = AnalysisQueue.started_at r /\
    StatusResponse.completed_at response = AnalysisQueue.completed_at r.
Proof.
  apply (handle_resolves_to_its_job decimal newest_stored_first
           decimal_str_int Scenario.fallback Scenario.initial
           7 "report.pdf" "report.pdf" "What is the revenue?" 1
           "processed_immediate_1" [Execute 1]).
  vm_compute. reflexivity.
Defined.

Lemma status_result_is_per_file_witness :
  let result (id created : Z) :=
    {| AnalysisResult.id := id;
       AnalysisResult.user_id := 7;
       AnalysisResult.filename := "report.pdf";
       AnalysisResult.file_size := 2048;
       AnalysisResult.query := "What is the revenue?";
       AnalysisResult.analysis_result := "analysis";
       AnalysisResult.processing_time := id + 2;
       AnalysisResult.status := "completed";
       AnalysisResult.created_at := created |} in
  let d :=
    {| analysis_queue :=
         [ Scenario.job 1 7 "completed" (Some 101) (Some 104) None;
           Scenario.job 2 7 "completed" (Some 111) (Some 114) None ];
       analysis_results := [ result 1 105; result 2 115 ] |} in
  (exists response response',
     get_analysis_status decimal newest_stored_first "1" d = Ok response /\
     get_analysis_status decimal newest_stored_first "processed_immediate_2" d
     = Ok response' /\
     StatusResponse.result_id response = StatusResponse.result_id response' /\
     StatusResponse.processing_time response
     = StatusResponse.processing_time response') /\
  match get_analysis_status decimal newest_stored_first "1" d with
  | Ok response =>
      StatusResponse.queue_id response = 1 /\
      StatusResponse.result_id response = Some 2 /\
      StatusResponse.processing_time response = Some 4
  | HTTPException _ _ => False
  end.
Proof.
  intros result d. split.
  - apply (status_result_is_per_file decimal newest_stored_first d
             "1" "processed_immediate_2" 1 2
             (Scenario.job 1 7 "completed" (Some 101) (Some 104) None)
             (Scenario.job 2 7 "completed" (Some 111) (Some 114) None));
      reflexivity.
  - vm_compute. repeat split.
Defined.

(* ===================================================================== *)
(** ** The page loop of [_run] *)
(* ===================================================================== *)

Lemma append_assoc (s t u : string) : (s ++ t) ++ u = s ++ (t ++ u).
Proof.
  induction s as [|c s IH]; [reflexivity |].
  rewrite !append_cons. now rewrite IH.
Qed.

Lemma read_pages_returned (texts : list string)
    (rest : list (outcome string)) :
  forall full_report,
    FinancialDocumentTool.read_pages (map Returns texts ++ rest)%list
      full_report
    = FinancialDocumentTool.read_pages rest (full_report ++ pages_text texts).
Proof.
  induction texts as [|content texts IH]; intros full_report.
  - simpl. f_equal. induction full_report as [|c s IHs]; [reflexivity |].
    rewrite append_cons. now rewrite <- IHs.
  - simpl. rewrite IH. f_equal. now rewrite !append_assoc.
Qed.

(** X15.  The page loop of [_run] gives, for pages that are all
    extracted, the cleaned texts in page order, each followed by one line
    feed; when the extraction of a page raises, it raises that exception
    whatever the pages after it hold. *)
Theorem read_pages_in_order (texts : list string) (e : exn)
    (rest : list (outcome string)) :
  FinancialDocumentTool.read_pages (map Returns texts) ""
  = Returns (pages_text texts) /\
  FinancialDocumentTool.read_pages (map Returns texts ++ Raises e :: rest)%list ""
  = Raises e.
Proof.
  split.
  - rewrite <- (app_nil_r (map Returns texts)).
    rewrite read_pages_returned. reflexivity.
  - rewrite read_pages_returned. reflexivity.
Qed.
